(** * tasakman: the flat-file task store of [src/tasakman.cpp]

    A shallow embedding of the C program and the properties of its
    record store.

    Modelling conventions.
    - A file's content and a C string are [list ascii].  The store is
      [option (list ascii)]: [None] when [tasks.txt] does not exist.
    - [int] is a [Z] in the range of 32 bits.  [maxId + 1] wraps around
      ([wrap32]); [sscanf]'s [%d] and [atoi] convert as glibc does on
      LP64: the digits are read by [strtol], which saturates at the
      bounds of [long], and the result is narrowed to [int] ([to_int]).
    - [fgets] fills [char line[MAX_DESCRIPTION_LEN + 20]]: it returns at
      most 275 bytes and stops after a newline.  The program then uses
      the buffer as a C string, which ends at the first NUL ([c_str]).
    - [sscanf]'s [%[^\n]] has no width, so a description of 256 bytes or
      more overruns [char description[MAX_DESCRIPTION_LEN]]; so does
      [strcat] in [main].  Such a run has no defined behaviour and is
      [Undefined] in the model.
    - [remove] and [rename] are taken to succeed; the other failures of
      the environment are fields of [env]. *)

From Stdlib Require Import ZArith Ascii String List Bool Lia Arith.
Import ListNotations.

Local Open Scope Z_scope.
Local Open Scope list_scope.

(** ** Bytes and C strings *)

Definition cstring := list ascii.

Definition str (s : string) : cstring := list_ascii_of_string s.

Definition code (c : ascii) : Z := Z.of_N (N_of_ascii c).

Definition NL : ascii := "010"%char.
Definition COMMA : ascii := ","%char.

Definition is_nl (c : ascii) : bool := code c =? 10.
Definition is_nul (c : ascii) : bool := code c =? 0.

(** [isspace] of the C locale: space, and \t \n \v \f \r. *)
Definition isspace (c : ascii) : bool :=
  (code c =? 32) || ((9 <=? code c) && (code c <=? 13)).

Definition isdigit (c : ascii) : bool :=
  (48 <=? code c) && (code c <=? 57).

Definition digit_val (c : ascii) : Z := code c - 48.

Definition digit_char (d : Z) : ascii := ascii_of_N (Z.to_N (48 + d)).

(** The buffer as the program sees it: up to the first NUL. *)
Fixpoint c_str (buf : list ascii) : cstring :=
  match buf with
  | [] => []
  | c :: r => if is_nul c then [] else c :: c_str r
  end.

(** ** Constants of the source *)

Definition MAX_DESCRIPTION_LEN : nat := 256.
Definition LINE_SIZE : nat := MAX_DESCRIPTION_LEN + 20.

(** ** The type [int] *)

Definition INT_MIN : Z := - 2 ^ 31.
Definition INT_MAX : Z := 2 ^ 31 - 1.
Definition LONG_MIN : Z := - 2 ^ 63.
Definition LONG_MAX : Z := 2 ^ 63 - 1.

Definition in_int (z : Z) : Prop := INT_MIN <= z <= INT_MAX.

Definition wrap32 (z : Z) : Z := (z + 2 ^ 31) mod 2 ^ 32 - 2 ^ 31.

Definition clamp_long (z : Z) : Z := Z.max LONG_MIN (Z.min LONG_MAX z).

Definition to_int (z : Z) : Z := wrap32 (clamp_long z).

(** ** Outcomes: a defined result, or undefined behaviour *)

Inductive outcome (A : Type) : Type :=
| Done (a : A)
| Undefined.

Arguments Done {A} a.
Arguments Undefined {A}.

Definition bind {A B} (m : outcome A) (k : A -> outcome B) : outcome B :=
  match m with
  | Done a => k a
  | Undefined => Undefined
  end.

Notation "x <- m ;; k" := (bind m (fun x => k))
  (at level 61, m at next level, right associativity).

Fixpoint foldM {A S} (body : S -> A -> outcome S) (l : list A) (s : S)
  : outcome S :=
  match l with
  | [] => Done s
  | a :: r => s' <- body s a ;; foldM body r s'
  end.

(** ** [fgets] and the read loop *)

(** [fgets_aux room s]: copy bytes of the stream while there is room,
    stopping after a newline; returns the bytes read and the rest. *)
Fixpoint fgets_aux (room : nat) (s : list ascii) : list ascii * list ascii :=
  match room, s with
  | O, _ => ([], s)
  | _, [] => ([], [])
  | S k, c :: r =>
      if is_nl c then ([c], r)
      else let (l, rest) := fgets_aux k r in (c :: l, rest)
  end.

(** [fgets(line, size, file)]: [None] is the NULL returned at end of
    file; [size - 1] bytes at most are stored before the terminator. *)
Definition fgets (size : nat) (s : list ascii)
  : option (list ascii * list ascii) :=
  match s with
  | [] => None
  | _ => Some (fgets_aux (size - 1) s)
  end.

(** The buffers that successive calls
    [while (fgets(line, sizeof(line), file) != NULL)] put in [line]. *)
Fixpoint read_bufs (fuel : nat) (s : list ascii) : list (list ascii) :=
  match fuel with
  | O => []
  | S k =>
      match fgets LINE_SIZE s with
      | None => []
      | Some (buf, rest) => buf :: read_bufs k rest
      end
  end.

(** Every call consumes a byte, so the length of the stream is fuel
    enough (see [file_bufs_unfold]). *)
Definition file_bufs (s : list ascii) : list (list ascii) :=
  read_bufs (length s) s.

(** The lines the loop body works on, as C strings. *)
Definition file_lines (s : list ascii) : list cstring :=
  map c_str (file_bufs s).

(** ** [sscanf] *)

Fixpoint skip_space (s : cstring) : cstring :=
  match s with
  | c :: r => if isspace c then skip_space r else s
  | [] => []
  end.

Fixpoint scan_digits (acc : Z) (s : cstring) : Z * cstring :=
  match s with
  | c :: r => if isdigit c then scan_digits (10 * acc + digit_val c) r
              else (acc, s)
  | [] => (acc, [])
  end.

Definition starts_with_digit (s : cstring) : bool :=
  match s with
  | c :: _ => isdigit c
  | [] => false
  end.

(** The conversion [%d]: white space, an optional sign, one digit at
    least.  [None] is a failed conversion. *)
Definition scan_int (s : cstring) : option (Z * cstring) :=
  let s1 := skip_space s in
  let '(neg, s2) :=
    match s1 with
    | c :: r => if code c =? 45 then (true, r)
                else if code c =? 43 then (false, r)
                else (false, s1)
    | [] => (false, s1)
    end in
  if starts_with_digit s2 then
    let '(v, rest) := scan_digits 0 s2 in
    Some (to_int (if neg then - v else v), rest)
  else None.

(** The conversion [%[^\n]]: the bytes up to a newline. *)
Fixpoint scan_not_nl (s : cstring) : cstring :=
  match s with
  | c :: r => if is_nl c then [] else c :: scan_not_nl r
  | [] => []
  end.

(** [sscanf(line, "%d,", &id) == 1]: the literal comma after the
    conversion does not change the count returned. *)
Definition scan_id (line : cstring) : option Z :=
  match scan_int line with
  | Some (id, _) => Some id
  | None => None
  end.

(** [sscanf(line, "%d,%d,%[^\n]", &id, &status, description) == 3];
    the description is returned whatever its length. *)
Definition scan_task (line : cstring) : option (Z * Z * cstring) :=
  match scan_int line with
  | Some (id, c1 :: r1) =>
      if code c1 =? 44 then
        match scan_int r1 with
        | Some (status, c2 :: r2) =>
            if code c2 =? 44 then
              match scan_not_nl r2 with
              | [] => None
              | d => Some (id, status, d)
              end
            else None
        | _ => None
        end
      else None
  | _ => None
  end.

(** ** [printf("%d")] *)

Fixpoint print_digits (fuel : nat) (n : Z) (acc : cstring) : cstring :=
  match fuel with
  | O => acc
  | S k =>
      let acc' := digit_char (n mod 10) :: acc in
      if n / 10 =? 0 then acc' else print_digits k (n / 10) acc'
  end.

(** An [int] has ten decimal digits at most. *)
Definition print_int (z : Z) : cstring :=
  if z <? 0 then "-"%char :: print_digits 10 (- z) []
  else print_digits 10 z [].

(** ** The environment, the store and what the program prints *)

Record env : Type := {
  home_set : bool;   (* getenv("HOME") != NULL *)
  dir_ok : bool;     (* the task directory exists, or mkdir makes it *)
  append_ok : bool;  (* fopen(full_task_file_path, "a") succeeds *)
  temp_ok : bool     (* fopen(temp_file_path, "w") succeeds *)
}.

(** [None]: [tasks.txt] does not exist, [fopen(..., "r")] returns NULL. *)
Definition store : Type := option (list ascii).

Inductive status_text : Type := DONE | PENDING.

Record row : Type := {
  row_id : Z;
  row_status : status_text;
  row_description : cstring
}.

Inductive output : Type :=
| Usage                            (* the usage text *)
| InvalidTaskId                    (* "Invalid task ID. ..." *)
| UnknownCommand (c : cstring)
| HomeNotSet
| DirError
| TaskAdded (id : Z) (d : cstring) (* "Task added: ID %d - ..." *)
| OpenError                        (* perror, file not opened *)
| NoTasksCreate                    (* "No tasks found. Create one ..." *)
| Listing (rows : list row)        (* the rows between the two rules;
                                      "No tasks found." when there are none *)
| NoTasksFound                     (* "No tasks found." *)
| TempFileError
| Marked (id : Z) (complete : bool)  (* "Task ID %d marked as ..." *)
| NotFound (id : Z)                (* "Task ID %d not found." *)
| Deleted (id : Z).                (* "Task ID %d deleted." *)

(** ** [getNextTaskId] *)

Definition max_step (maxId : Z) (line : cstring) : Z :=
  match scan_id line with
  | Some id => if id >? maxId then id else maxId
  | None => maxId
  end.

Definition getNextTaskId (st : store) : Z :=
  match st with
  | None => 1
  | Some f =>
      let maxId := fold_left max_step (file_lines f) 0 in
      wrap32 (maxId + 1)
  end.

(** ** [addTask] *)

(** [fprintf(file, "%d,%d,%s\n", id, status, description)] *)
Definition task_line (id status : Z) (description : cstring) : list ascii :=
  print_int id ++ [COMMA] ++ print_int status ++ [COMMA]
  ++ description ++ [NL].

(** The file is opened for appending, which creates it, before the
    next id is read from it. *)
Definition addTask (e : env) (description : cstring) (st : store)
  : store * output :=
  if append_ok e then
    let f := match st with Some f => f | None => [] end in
    let id := getNextTaskId (Some f) in
    (Some (f ++ task_line id 0 description), TaskAdded id description)
  else (st, OpenError).

(** ** [listTasks] *)

Definition status_display (status : Z) : status_text :=
  if status =? 1 then DONE else PENDING.

Definition list_step (rows : list row) (line : cstring)
  : outcome (list row) :=
  match scan_task line with
  | Some (id, status, d) =>
      if (length d <? MAX_DESCRIPTION_LEN)%nat
      then Done (rows ++ [Build_row id (status_display status) d])
      else Undefined
  | None => Done rows
  end.

(** The read loop of [listTasks]: the rows printed, in order. *)
Definition list_loop (f : list ascii) : outcome (list row) :=
  foldM list_step (file_lines f) [].

Definition listTasks (st : store) : outcome output :=
  match st with
  | None => Done NoTasksCreate
  | Some f => rows <- list_loop f ;; Done (Listing rows)
  end.

(** ** [modifyTaskStatus] *)

(** The loop state: what has been written to the temporary file, and
    [taskFound]. *)
Definition modify_step (taskId : Z) (complete : bool)
  (s : list ascii * bool) (line : cstring) : outcome (list ascii * bool) :=
  let '(temp, taskFound) := s in
  match scan_task line with
  | Some (id, status, d) =>
      if (length d <? MAX_DESCRIPTION_LEN)%nat then
        if id =? taskId
        then Done (temp ++ task_line id (if complete then 1 else 0) d, true)
        else Done (temp ++ line, taskFound)
      else Undefined
  | None => Done (temp ++ line, taskFound)
  end.

(** The read loop of [modifyTaskStatus]: the temporary file and
    [taskFound] at its end. *)
Definition modify_loop (taskId : Z) (complete : bool) (f : list ascii)
  : outcome (list ascii * bool) :=
  foldM (modify_step taskId complete) (file_lines f) ([], false).

Definition modifyTaskStatus (e : env) (taskId : Z) (complete : bool)
  (st : store) : outcome (store * output) :=
  match st with
  | None => Done (None, NoTasksFound)
  | Some f =>
      if negb (home_set e) then Done (st, HomeNotSet)
      else if negb (temp_ok e) then Done (st, TempFileError)
      else
        s <- modify_loop taskId complete f ;;
        Done (Some (fst s),
              if snd s then Marked taskId complete else NotFound taskId)
  end.

(** ** [deleteTask] *)

Definition delete_step (taskId : Z) (s : list ascii * bool)
  (line : cstring) : list ascii * bool :=
  let '(temp, taskFound) := s in
  match scan_id line with
  | Some id => if id =? taskId then (temp, true)
               else (temp ++ line, taskFound)
  | None => (temp ++ line, taskFound)
  end.

Definition deleteTask (e : env) (taskId : Z) (st : store) : store * output :=
  match st with
  | None => (None, NoTasksFound)
  | Some f =>
      if negb (home_set e) then (st, HomeNotSet)
      else if negb (temp_ok e) then (st, TempFileError)
      else
        let s := fold_left (delete_step taskId) (file_lines f) ([], false) in
        (Some (fst s), if snd s then Deleted taskId else NotFound taskId)
  end.

(** ** [main] *)

Fixpoint strcmp_eq (a b : cstring) : bool :=
  match a, b with
  | [], [] => true
  | x :: a', y :: b' => (code x =? code y) && strcmp_eq a' b'
  | _, _ => false
  end.

(** [atoi]: [strtol] narrowed to [int]; 0 when there is no number. *)
Definition atoi (s : cstring) : Z :=
  match scan_int s with
  | Some (v, _) => v
  | None => 0
  end.

(** The arguments from [argv[2]] on, joined by single spaces. *)
Fixpoint join_args (args : list cstring) : cstring :=
  match args with
  | [] => []
  | [a] => a
  | a :: r => a ++ " "%char :: join_args r
  end.

(** The exit status, the store afterwards and what was printed.
    [argv] includes the program name. *)
Definition main (e : env) (argv : list cstring) (st : store)
  : outcome (Z * store * output) :=
  if negb (home_set e) then Done (1, st, HomeNotSet)
  else if negb (dir_ok e) then Done (1, st, DirError)
  else
    match argv with
    | [] | [_] => Done (1, st, Usage)
    | _ :: cmd :: args =>
        if strcmp_eq cmd (str "add") then
          match args with
          | [] => Done (1, st, Usage)
          | _ =>
              let description := join_args args in
              if (length description <? MAX_DESCRIPTION_LEN)%nat then
                let '(st', out) := addTask e description st in
                Done (0, st', out)
              else Undefined
          end
        else if strcmp_eq cmd (str "list") then
          out <- listTasks st ;; Done (0, st, out)
        else if strcmp_eq cmd (str "done") then
          match args with
          | [] => Done (1, st, Usage)
          | a :: _ =>
              let taskId := atoi a in
              if taskId <=? 0 then Done (1, st, InvalidTaskId)
              else r <- modifyTaskStatus e taskId true st ;;
                   Done (0, fst r, snd r)
          end
        else if strcmp_eq cmd (str "pending") then
          match args with
          | [] => Done (1, st, Usage)
          | a :: _ =>
              let taskId := atoi a in
              if taskId <=? 0 then Done (1, st, InvalidTaskId)
              else r <- modifyTaskStatus e taskId false st ;;
                   Done (0, fst r, snd r)
          end
        else if strcmp_eq cmd (str "delete") then
          match args with
          | [] => Done (1, st, Usage)
          | a :: _ =>
              let taskId := atoi a in
              if taskId <=? 0 then Done (1, st, InvalidTaskId)
              else let '(st', out) := deleteTask e taskId st in
                   Done (0, st', out)
          end
        else Done (1, st, UnknownCommand cmd)
    end.

(** ** The lines of a file, by its newlines *)

(** The first line of [s] with its newline, and what follows it. *)
Fixpoint cut_line (s : list ascii) : list ascii * list ascii :=
  match s with
  | [] => ([], [])
  | c :: r =>
      if is_nl c then ([c], r)
      else let (l, rest) := cut_line r in (c :: l, rest)
  end.

(** The lines of a text, each with its newline; the last one may lack
    it. *)
Fixpoint split_lines (s : list ascii) : list (list ascii) :=
  match s with
  | [] => []
  | c :: r =>
      if is_nl c then [c] :: split_lines r
      else match split_lines r with
           | [] => [[c]]
           | l :: ls => (c :: l) :: ls
           end
  end.

(** No NUL byte: the file is a text file. *)
Definition text_file (f : list ascii) : bool :=
  forallb (fun c => negb (is_nul c)) f.

(** Every line, newline included, fits the buffer [fgets] reads into. *)
Definition short_lines (f : list ascii) : bool :=
  forallb (fun l => (length l <=? LINE_SIZE - 1)%nat) (split_lines f).

(** No description that [sscanf] extracts from a line read overruns
    [description]. *)
Definition desc_fits_line (line : cstring) : bool :=
  match scan_task line with
  | Some (_, _, d) => (length d <? MAX_DESCRIPTION_LEN)%nat
  | None => true
  end.

Definition desc_fits (f : list ascii) : bool :=
  forallb desc_fits_line (file_lines f).

Definition no_nl (w : list ascii) : bool :=
  forallb (fun c => negb (is_nl c)) w.

(** ** What the loops compute, line by line *)

(** The line carries [taskId] for [deleteTask]: its leading integer. *)
Definition id_matches (taskId : Z) (line : cstring) : bool :=
  match scan_id line with
  | Some id => id =? taskId
  | None => false
  end.

(** The line is a well-formed record. *)
Definition well_formed (line : cstring) : bool :=
  match scan_task line with
  | Some _ => true
  | None => false
  end.

(** The line is a well-formed record with id [taskId]. *)
Definition task_matches (taskId : Z) (line : cstring) : bool :=
  match scan_task line with
  | Some (id, _, _) => id =? taskId
  | None => false
  end.

(** The record line with its status replaced. *)
Definition rewrite_line (complete : bool) (line : cstring) : list ascii :=
  match scan_task line with
  | Some (id, _, d) => task_line id (if complete then 1 else 0) d
  | None => line
  end.

(** What [modifyTaskStatus] writes for a line. *)
Definition set_status (taskId : Z) (complete : bool) (line : cstring)
  : list ascii :=
  if task_matches taskId line then rewrite_line complete line else line.

(** The row [listTasks] prints for a line. *)
Definition row_of_line (line : cstring) : option row :=
  match scan_task line with
  | Some (id, status, d) => Some (Build_row id (status_display status) d)
  | None => None
  end.

Fixpoint filter_map {A B} (f : A -> option B) (l : list A) : list B :=
  match l with
  | [] => []
  | a :: r => match f a with
              | Some b => b :: filter_map f r
              | None => filter_map f r
              end
  end.

(** The leading integers of the lines on disk. *)
Definition disk_ids (st : store) : list Z :=
  match st with
  | None => []
  | Some f => filter_map scan_id (file_lines f)
  end.

(** The largest of [ids], or 0 when none is positive. *)
Definition max_of (ids : list Z) : Z := fold_right Z.max 0 ids.

(** A position in a file where a line starts. *)
Definition line_start (pre : list ascii) : Prop :=
  pre = [] \/ exists p c, pre = p ++ [c] /\ is_nl c = true.

(** A line with its newline that fits the read buffer. *)
Definition whole_line (l : list ascii) : Prop :=
  exists w c, l = w ++ [c] /\ is_nl c = true /\ no_nl w = true /\
              (length w < LINE_SIZE - 1)%nat.

(** The line has a leading integer that [%d] converts. *)
Definition has_leading_id (line : cstring) : bool :=
  match scan_id line with
  | Some _ => true
  | None => false
  end.

(** A buffer that ends a line or is full is read back whatever
    follows it. *)
Definition closed (n : nat) (b : list ascii) : Prop :=
  forall t, fgets_aux n (b ++ t) = (b, t).

(** What one call of [fgets] with room for [n] bytes returns: a line
    with its newline, a full buffer, or the end of the file. *)
Inductive buf_shape (n : nat) (b r : list ascii) : Prop :=
| shape_line w c :
    b = w ++ [c] -> is_nl c = true -> no_nl w = true ->
    (length w < n)%nat -> buf_shape n b r
| shape_full :
    no_nl b = true -> length b = n -> buf_shape n b r
| shape_eof :
    no_nl b = true -> (length b < n)%nat -> r = [] -> buf_shape n b r.

(** A run of decimal digits. *)
Definition all_digits (ds : cstring) : bool := forallb isdigit ds.

(** A line read that is text and whose description fits. *)
Definition line_ok (l : cstring) : Prop :=
  text_file l = true /\ desc_fits_line l = true.

(** A list of buffers that [fgets] returns one by one from their
    concatenation: each but the last ends a line or fills the buffer. *)
Inductive well_chunked : list (list ascii) -> Prop :=
| wc_nil : well_chunked []
| wc_cons b M :
    b <> [] ->
    closed (LINE_SIZE - 1) b \/
      (M = [] /\ fgets_aux (LINE_SIZE - 1) b = (b, [])) ->
    well_chunked M ->
    well_chunked (b :: M).

(** ** Sequences of operations *)

Inductive op : Type :=
| Add (description : cstring)
| Delete (taskId : Z).

(** What an operation did to the ids: [Assigned before id] when
    [addTask] gave [id] to a new task, the store being [before]. *)
Inductive event : Type :=
| Assigned (before : store) (id : Z)
| Removed (id : Z)
| Nothing.

Definition step (e : env) (st : store) (o : op) : store * event :=
  match o with
  | Add d =>
      match addTask e d st with
      | (st', TaskAdded id _) => (st', Assigned st id)
      | (st', _) => (st', Nothing)
      end
  | Delete t =>
      match deleteTask e t st with
      | (st', Deleted id) => (st', Removed id)
      | (st', _) => (st', Nothing)
      end
  end.

Fixpoint run (e : env) (st : store) (ops : list op) : list event :=
  match ops with
  | [] => []
  | o :: r => let (st', ev) := step e st o in ev :: run e st' r
  end.

(** No add is given an id that an earlier add was given and a delete
    removed since: [assigned] and [retired] are the ids given and the
    ids given and then deleted so far. *)
Fixpoint reuse_free (assigned retired : list Z) (evs : list event) : bool :=
  match evs with
  | [] => true
  | Assigned _ id :: r =>
      negb (existsb (Z.eqb id) retired)
      && reuse_free (id :: assigned) retired r
  | Removed id :: r =>
      reuse_free assigned
        (if existsb (Z.eqb id) assigned then id :: retired else retired) r
  | Nothing :: r => reuse_free assigned retired r
  end.

(** The id of an add is one more than the largest id on disk, and
    larger than every id on disk unless [int] overflows. *)
Definition add_fresh (ev : event) : Prop :=
  match ev with
  | Assigned before id =>
      id = wrap32 (max_of (disk_ids before) + 1) /\
      (max_of (disk_ids before) < INT_MAX ->
       id = max_of (disk_ids before) + 1 /\
       Forall (fun i => i < id) (disk_ids before))
  | _ => True
  end.

(** The next id in the words of the specification: the largest parsed
    id plus one, and 1 when there is none. *)
Definition spec_NextId (ids : list Z) : Z :=
  match ids with
  | [] => 1
  | i :: r => fold_right Z.max i r + 1
  end.

Definition env_ok : env := Build_env true true true true.

(** ** The paths of the store *)

Definition MAX_PATH_LEN : nat := 512.
Definition TASK_DIR_SUFFIX : cstring := str "/.local/taskmanager".
Definition TASK_FILENAME : cstring := str "tasks.txt".
Definition TEMP_FILENAME : cstring := str "temp_tasks.txt".

(** [snprintf(buf, size, ...)] stores the first [size - 1] bytes of the
    text it formats. *)
Definition snprintf (size : nat) (text : cstring) : cstring :=
  firstn (size - 1) text.

(** [task_dir] of [ensure_task_directory_exists]. *)
Definition task_dir (home : cstring) : cstring :=
  snprintf MAX_PATH_LEN (home ++ TASK_DIR_SUFFIX).

(** [full_task_file_path], set by [main]. *)
Definition full_task_file_path (home : cstring) : cstring :=
  snprintf MAX_PATH_LEN (home ++ TASK_DIR_SUFFIX ++ str "/" ++ TASK_FILENAME).

(** [temp_file_path] of [modifyTaskStatus] and [deleteTask]. *)
Definition temp_file_path (home : cstring) : cstring :=
  snprintf MAX_PATH_LEN (home ++ TASK_DIR_SUFFIX ++ str "/" ++ TEMP_FILENAME).

(** ** Descriptions, rows and stores the program makes itself *)

(** A description that fits [description], on one line. *)
Definition valid_description (d : cstring) : bool :=
  no_nl d && text_file d && (length d <? MAX_DESCRIPTION_LEN)%nat.

(** The file is empty or ends with a newline. *)
Definition ends_nl (f : list ascii) : bool :=
  match rev f with
  | [] => true
  | c :: _ => is_nl c
  end.

(** The row of a task after its status is set. *)
Definition set_row_status (taskId : Z) (complete : bool) (r : row) : row :=
  if row_id r =? taskId
  then Build_row (row_id r) (if complete then DONE else PENDING)
         (row_description r)
  else r.

(** A line of text with its newline that fits the read buffer, with a
    description that fits its own. *)
Definition good_line (l : list ascii) : Prop :=
  whole_line l /\ text_file l = true /\ desc_fits_line l = true.

(** A store made of such lines, or absent. *)
Definition tidy (st : store) : Prop :=
  match st with
  | None => True
  | Some f => text_file f = true /\ Forall good_line (file_lines f)
  end.

(** The commands of the program, on the store. *)
Inductive command : Type :=
| CAdd (description : cstring)
| CSetStatus (taskId : Z) (complete : bool)
| CDelete (taskId : Z)
| CList.

Definition exec (e : env) (st : store) (c : command) : outcome store :=
  match c with
  | CAdd d => Done (fst (addTask e d st))
  | CSetStatus t b => r <- modifyTaskStatus e t b st ;; Done (fst r)
  | CDelete t => Done (fst (deleteTask e t st))
  | CList => _ <- listTasks st ;; Done st
  end.

Definition exec_all (e : env) (cmds : list command) (st : store)
  : outcome store :=
  foldM (exec e) cmds st.

Definition valid_command (c : command) : bool :=
  match c with
  | CAdd d => valid_description d
  | _ => true
  end.

(** * Properties *)

(** ** Reading a file *)

Lemma fgets_aux_app n s b r :
  fgets_aux n s = (b, r) -> s = b ++ r.
Proof.
  revert s b r; induction n as [|n IH]; intros s b r H.
  - destruct s; simpl in H; inversion H; reflexivity.
  - destruct s as [|c s]; simpl in H.
    + inversion H; reflexivity.
    + destruct (is_nl c).
      * inversion H; reflexivity.
      * destruct (fgets_aux n s) as [l rest] eqn:E.
        inversion H; subst. simpl. f_equal. now apply IH.
Qed.

Lemma fgets_aux_length n s b r :
  fgets_aux n s = (b, r) -> (length b <= n)%nat.
Proof.
  revert s b r; induction n as [|n IH]; intros s b r H.
  - destruct s; simpl in H; inversion H; simpl; lia.
  - destruct s as [|c s]; simpl in H.
    + inversion H; simpl; lia.
    + destruct (is_nl c).
      * inversion H; simpl; lia.
      * destruct (fgets_aux n s) as [l rest] eqn:E.
        inversion H; subst. simpl. apply IH in E. lia.
Qed.

Lemma fgets_aux_nonempty n s b r :
  fgets_aux (S n) s = (b, r) -> s <> [] -> b <> [].
Proof.
  intros H Hs. destruct s as [|c s]; [congruence|]. simpl in H.
  destruct (is_nl c).
  - inversion H; discriminate.
  - destruct (fgets_aux n s). inversion H; discriminate.
Qed.

Lemma fgets_Some size s b r :
  fgets size s = Some (b, r) ->
  s <> [] /\ fgets_aux (size - 1) s = (b, r).
Proof.
  unfold fgets. destruct s as [|c s]; [discriminate|].
  generalize (fgets_aux (size - 1) (c :: s)). intros p H.
  split; [discriminate|congruence].
Qed.

Lemma fgets_progress s b r :
  fgets LINE_SIZE s = Some (b, r) ->
  s = b ++ r /\ b <> [] /\ (length r < length s)%nat.
Proof.
  intros H. apply fgets_Some in H. destruct H as [Hs H1].
  change (LINE_SIZE - 1)%nat with (S 274) in H1.
  pose proof (fgets_aux_app _ _ _ _ H1) as Happ.
  assert (Hb : b <> []) by (eapply fgets_aux_nonempty; eauto).
  split; [exact Happ|]. split; [exact Hb|].
  rewrite Happ, length_app. destruct b; [congruence|simpl; lia].
Qed.

Lemma read_bufs_fuel fuel1 : forall fuel2 s,
  (length s <= fuel1)%nat -> (length s <= fuel2)%nat ->
  read_bufs fuel1 s = read_bufs fuel2 s.
Proof.
  induction fuel1 as [|k IH]; intros fuel2 s H1 H2.
  - destruct s; [|simpl in H1; lia]. destruct fuel2; reflexivity.
  - destruct fuel2 as [|k2].
    + destruct s; [reflexivity|simpl in H2; lia].
    + simpl. destruct (fgets LINE_SIZE s) as [[b r]|] eqn:E; [|reflexivity].
      apply fgets_progress in E. destruct E as (_ & _ & Hlt).
      f_equal. apply IH; lia.
Qed.

(** The fuel never runs out: [file_bufs] is the iteration of [fgets]
    up to the end of the file. *)
Lemma file_bufs_unfold s :
  file_bufs s =
  match fgets LINE_SIZE s with
  | None => []
  | Some (b, r) => b :: file_bufs r
  end.
Proof.
  unfold file_bufs. destruct s as [|c s]; [reflexivity|].
  cbn [length read_bufs].
  destruct (fgets LINE_SIZE (c :: s)) as [[b r]|] eqn:E; [|reflexivity].
  apply fgets_progress in E. destruct E as (_ & _ & Hlt). simpl in Hlt.
  f_equal. apply read_bufs_fuel; lia.
Qed.

Lemma file_bufs_nil : file_bufs [] = [].
Proof. reflexivity. Qed.

Lemma file_bufs_cons s b r :
  s <> [] -> fgets_aux (LINE_SIZE - 1) s = (b, r) ->
  file_bufs s = b :: file_bufs r.
Proof.
  intros Hs H. rewrite file_bufs_unfold. unfold fgets.
  destruct s; [congruence|]. now rewrite H.
Qed.

(** Induction along the reads of a file. *)
Lemma file_read_ind (P : list ascii -> Prop) :
  P [] ->
  (forall s b r, s <> [] -> fgets_aux (LINE_SIZE - 1) s = (b, r) ->
                 P r -> P s) ->
  forall s, P s.
Proof.
  intros H0 Hstep s.
  remember (length s) as n eqn:Hn.
  revert s Hn. induction n as [n IH] using lt_wf_ind. intros s Hn.
  destruct s as [|c s]; [exact H0|].
  destruct (fgets_aux (LINE_SIZE - 1) (c :: s)) as [b r] eqn:E.
  apply (Hstep _ b r); [discriminate|exact E|].
  assert (Hf : fgets LINE_SIZE (c :: s) = Some (b, r))
    by (unfold fgets; now rewrite E).
  apply fgets_progress in Hf. destruct Hf as (_ & _ & Hlt).
  apply (IH (length r)); [subst n; exact Hlt|reflexivity].
Qed.

Lemma concat_file_bufs s : concat (file_bufs s) = s.
Proof.
  induction s as [|s b r Hs E IH] using file_read_ind; [reflexivity|].
  rewrite (file_bufs_cons _ _ _ Hs E). simpl. rewrite IH.
  symmetry. eapply fgets_aux_app; eauto.
Qed.

(** ** Text files: the buffer is the C string *)

Lemma c_str_text b : text_file b = true -> c_str b = b.
Proof.
  induction b as [|c b IH]; simpl; [reflexivity|].
  intros H. apply andb_true_iff in H. destruct H as [Hc Hb].
  destruct (is_nul c); [discriminate|]. now rewrite IH.
Qed.

Lemma text_file_app a b :
  text_file (a ++ b) = text_file a && text_file b.
Proof. unfold text_file. apply forallb_app. Qed.

Lemma text_file_bufs f :
  text_file f = true -> Forall (fun b => text_file b = true) (file_bufs f).
Proof.
  induction f as [|s b r Hs E IH] using file_read_ind; intros H.
  - constructor.
  - rewrite (file_bufs_cons _ _ _ Hs E).
    apply fgets_aux_app in E. subst s. rewrite text_file_app in H.
    apply andb_true_iff in H. destruct H. constructor; auto.
Qed.

Lemma file_lines_text f :
  text_file f = true -> file_lines f = file_bufs f.
Proof.
  intros H. unfold file_lines. apply text_file_bufs in H.
  induction H as [|b l Hb _ IH]; simpl; [reflexivity|].
  now rewrite c_str_text, IH.
Qed.

(** ** The shape of what [fgets] returns *)

Lemma fgets_aux_shape n : forall s b r,
  fgets_aux n s = (b, r) -> buf_shape n b r.
Proof.
  induction n as [|n IH]; intros s b r H.
  - destruct s; simpl in H; injection H as <- <-; now apply shape_full.
  - destruct s as [|c s]; simpl in H.
    + injection H as <- <-. apply shape_eof; simpl; auto; lia.
    + destruct (is_nl c) eqn:Ec.
      * injection H as <- <-. apply (shape_line _ _ _ [] c); simpl; auto; lia.
      * destruct (fgets_aux n s) as [l rest] eqn:E.
        injection H as <- <-. apply IH in E.
        destruct E as [w d Hb Hd Hw Hl|Hb Hl|Hb Hl Hr].
        -- apply (shape_line _ _ _ (c :: w) d); simpl; auto.
           ++ now rewrite Hb.
           ++ now rewrite Ec, Hw.
           ++ lia.
        -- apply shape_full; simpl; [now rewrite Ec, Hb|lia].
        -- apply shape_eof; simpl; auto; [now rewrite Ec, Hb|lia].
Qed.

Lemma closed_line n w c :
  is_nl c = true -> no_nl w = true -> (length w < n)%nat ->
  closed n (w ++ [c]).
Proof.
  intros Hc. revert n. induction w as [|a w IH]; intros n Hw Hl t.
  - destruct n; [simpl in Hl; lia|]. simpl. now rewrite Hc.
  - destruct n; [simpl in Hl; lia|]. simpl in *.
    apply andb_true_iff in Hw. destruct Hw as [Ha Hw].
    apply negb_true_iff in Ha. rewrite Ha.
    rewrite (IH n Hw); [reflexivity|lia].
Qed.

Lemma closed_full n b :
  no_nl b = true -> length b = n -> closed n b.
Proof.
  revert n. induction b as [|a b IH]; intros n Hb Hl t.
  - simpl in Hl. subst n. simpl. now destruct t.
  - destruct n; [discriminate|]. simpl in *.
    apply andb_true_iff in Hb. destruct Hb as [Ha Hb].
    apply negb_true_iff in Ha. rewrite Ha.
    rewrite (IH n Hb); [reflexivity|lia].
Qed.

Lemma eof_read n b :
  no_nl b = true -> (length b <= n)%nat -> fgets_aux n b = (b, []).
Proof.
  revert n. induction b as [|a b IH]; intros n Hb Hl.
  - now destruct n.
  - destruct n; [simpl in Hl; lia|]. simpl in *.
    apply andb_true_iff in Hb. destruct Hb as [Ha Hb].
    apply negb_true_iff in Ha. rewrite Ha.
    rewrite (IH n Hb); [reflexivity|lia].
Qed.

Lemma shape_closed n b r :
  buf_shape n b r -> r <> [] -> closed n b.
Proof.
  intros [w c Hb Hc Hw Hl|Hb Hl|Hb Hl Hr] Hr'.
  - subst b. now apply closed_line.
  - now apply closed_full.
  - congruence.
Qed.

(** Reading [b] again in front of another rest, empty exactly when the
    first was. *)
Lemma shape_reread n b r t :
  buf_shape n b r -> (r = [] -> t = []) -> fgets_aux n (b ++ t) = (b, t).
Proof.
  intros [w c Hb Hc Hw Hl|Hb Hl|Hb Hl Hr] Ht.
  - subst b. now apply closed_line.
  - now apply closed_full.
  - rewrite (Ht Hr), app_nil_r. apply eof_read; [exact Hb|lia].
Qed.

Lemma no_nl_app a b : no_nl (a ++ b) = no_nl a && no_nl b.
Proof. unfold no_nl. apply forallb_app. Qed.

(** ** Lines by newlines and lines as read *)

Lemma split_lines_unfold s :
  s <> [] ->
  split_lines s = fst (cut_line s) :: split_lines (snd (cut_line s)).
Proof.
  induction s as [|c s IH]; [congruence|]. intros _. simpl.
  destruct (is_nl c); [reflexivity|].
  destruct s as [|d s]; [reflexivity|].
  rewrite IH by discriminate.
  destruct (cut_line (d :: s)) as [l rest]. reflexivity.
Qed.

Lemma fgets_aux_cut n : forall s,
  (length (fst (cut_line s)) <= n)%nat -> fgets_aux n s = cut_line s.
Proof.
  induction n as [|n IH]; intros s H.
  - destruct s as [|c s]; [reflexivity|]. simpl in *.
    destruct (is_nl c); [simpl in H; lia|].
    destruct (cut_line s); simpl in H; lia.
  - destruct s as [|c s]; [reflexivity|]. simpl in *.
    destruct (is_nl c); [reflexivity|].
    destruct (cut_line s) as [l rest] eqn:E. simpl in H.
    rewrite IH; rewrite E; [reflexivity|simpl; lia].
Qed.

(** When every line fits the buffer, the program reads the file line
    by line. *)
Lemma file_bufs_short f :
  short_lines f = true -> file_bufs f = split_lines f.
Proof.
  induction f as [|s b r Hs E IH] using file_read_ind; intros H.
  - reflexivity.
  - unfold short_lines in H. rewrite split_lines_unfold in * by exact Hs.
    simpl in H. apply andb_true_iff in H. destruct H as [Hl Hr].
    apply Nat.leb_le in Hl.
    rewrite fgets_aux_cut in E by exact Hl.
    rewrite (file_bufs_cons s (fst (cut_line s)) (snd (cut_line s)) Hs).
    + f_equal. rewrite E in *. simpl in *. now apply IH.
    + rewrite fgets_aux_cut by exact Hl. now destruct (cut_line s).
Qed.

Lemma concat_split_lines s : concat (split_lines s) = s.
Proof.
  induction s as [|c s IH]; [reflexivity|]. simpl.
  destruct (is_nl c); simpl; [now rewrite IH|].
  destruct (split_lines s) as [|l ls]; simpl in *; now rewrite <- IH.
Qed.

(** ** Printing an [int] and scanning it back *)

Lemma digit_cases d :
  0 <= d <= 9 ->
  d = 0 \/ d = 1 \/ d = 2 \/ d = 3 \/ d = 4 \/
  d = 5 \/ d = 6 \/ d = 7 \/ d = 8 \/ d = 9.
Proof. lia. Qed.

Lemma code_digit_char d : 0 <= d <= 9 -> code (digit_char d) = 48 + d.
Proof.
  intros H. apply digit_cases in H.
  repeat (destruct H as [H|H]; [subst d; reflexivity|]).
  subst d; reflexivity.
Qed.

Lemma isdigit_digit_char d : 0 <= d <= 9 -> isdigit (digit_char d) = true.
Proof.
  intros H. unfold isdigit. rewrite code_digit_char by exact H.
  apply andb_true_iff. split; apply Z.leb_le; lia.
Qed.

Lemma digit_val_digit_char d : 0 <= d <= 9 -> digit_val (digit_char d) = d.
Proof.
  intros H. unfold digit_val. rewrite code_digit_char by exact H. lia.
Qed.

Lemma print_digits_scan fuel : forall n acc,
  (0 < fuel)%nat -> 0 <= n < 10 ^ Z.of_nat fuel ->
  exists ds,
    print_digits fuel n acc = ds ++ acc /\
    (0 < length ds <= fuel)%nat /\
    all_digits ds = true /\
    forall a rest,
      scan_digits a (ds ++ rest)
      = scan_digits (a * 10 ^ Z.of_nat (length ds) + n) rest.
Proof.
  induction fuel as [|k IH]; intros n acc Hk Hn; [lia|].
  assert (Hd : 0 <= n mod 10 <= 9) by (pose proof (Z.mod_pos_bound n 10); lia).
  cbn [print_digits]. destruct (n / 10 =? 0) eqn:Eq.
  - apply Z.eqb_eq in Eq.
    assert (Hn' : n mod 10 = n)
      by (pose proof (Z.div_mod n 10); lia).
    exists [digit_char (n mod 10)]. repeat split.
    + simpl; lia.
    + simpl; lia.
    + simpl. now rewrite isdigit_digit_char.
    + intros a rest. cbn [app scan_digits length].
      rewrite isdigit_digit_char, digit_val_digit_char by exact Hd.
      f_equal. change (Z.of_nat 1) with 1. rewrite Z.pow_1_r. lia.
  - apply Z.eqb_neq in Eq.
    assert (Hq : 0 < n / 10) by (pose proof (Z.div_pos n 10); lia).
    assert (Hk' : (0 < k)%nat).
    { destruct k; [|lia]. simpl in Hn.
      assert (n / 10 = 0) by (apply Z.div_small; lia). lia. }
    assert (Hq' : 0 <= n / 10 < 10 ^ Z.of_nat k).
    { split; [lia|]. apply Z.div_lt_upper_bound; [lia|].
      rewrite Nat2Z.inj_succ, Z.pow_succ_r in Hn by lia. lia. }
    destruct (IH (n / 10) (digit_char (n mod 10) :: acc) Hk' Hq')
      as (ds & Hp & Hl & Hall & Hscan).
    exists (ds ++ [digit_char (n mod 10)]). repeat split.
    + rewrite Hp, <- app_assoc. reflexivity.
    + rewrite length_app; simpl; lia.
    + rewrite length_app; simpl; lia.
    + unfold all_digits in *. rewrite forallb_app, Hall. simpl.
      now rewrite isdigit_digit_char.
    + intros a rest. rewrite <- app_assoc, Hscan. cbn [app scan_digits].
      rewrite isdigit_digit_char, digit_val_digit_char by exact Hd.
      f_equal. rewrite length_app. simpl length.
      replace (Z.of_nat (length ds + 1)) with (Z.succ (Z.of_nat (length ds)))
        by lia.
      rewrite Z.pow_succ_r by lia.
      pose proof (Z.div_mod n 10). lia.
Qed.

Lemma scan_digits_stop a rest :
  starts_with_digit rest = false -> scan_digits a rest = (a, rest).
Proof.
  destruct rest as [|c r]; simpl; [reflexivity|]. now intros ->.
Qed.

Lemma isdigit_not_space c : isdigit c = true -> isspace c = false.
Proof.
  unfold isdigit, isspace. intros H.
  apply andb_true_iff in H. destruct H as [H1 H2].
  apply Z.leb_le in H1. apply Z.leb_le in H2.
  apply orb_false_iff. split.
  - apply Z.eqb_neq. lia.
  - apply andb_false_iff. right. apply Z.leb_gt. lia.
Qed.

Lemma isdigit_code c : isdigit c = true -> 48 <= code c <= 57.
Proof.
  unfold isdigit. intros H. apply andb_true_iff in H. destruct H as [H1 H2].
  apply Z.leb_le in H1. apply Z.leb_le in H2. lia.
Qed.

Lemma to_int_id z : in_int z -> to_int z = z.
Proof.
  unfold in_int, INT_MIN, INT_MAX, to_int, clamp_long, LONG_MIN, LONG_MAX,
    wrap32. intros H.
  rewrite Z.min_r by lia. rewrite Z.max_r by lia.
  rewrite Z.mod_small by lia. lia.
Qed.

Lemma wrap32_range z : in_int (wrap32 z).
Proof.
  unfold in_int, INT_MIN, INT_MAX, wrap32.
  pose proof (Z.mod_pos_bound (z + 2 ^ 31) (2 ^ 32)). lia.
Qed.

Lemma to_int_range z : in_int (to_int z).
Proof. apply wrap32_range. Qed.

(** What [print_int] writes: a sign if negative, then digits. *)
Lemma print_int_shape z :
  in_int z ->
  exists ds,
    print_int z = (if z <? 0 then ["-"%char] else []) ++ ds /\
    (0 < length ds <= 10)%nat /\ all_digits ds = true /\
    forall a rest,
      scan_digits a (ds ++ rest)
      = scan_digits (a * 10 ^ Z.of_nat (length ds) + Z.abs z) rest.
Proof.
  intros Hz. unfold in_int, INT_MIN, INT_MAX in Hz. unfold print_int.
  destruct (z <? 0) eqn:E.
  - apply Z.ltb_lt in E.
    destruct (print_digits_scan 10 (- z) []) as (ds & Hp & Hl & Hall & Hs);
      [lia|simpl; lia|].
    exists ds. rewrite Hp, app_nil_r. repeat split; try tauto; try lia.
    intros a rest. rewrite Hs. f_equal. lia.
  - apply Z.ltb_ge in E.
    destruct (print_digits_scan 10 z []) as (ds & Hp & Hl & Hall & Hs);
      [lia|simpl; lia|].
    exists ds. rewrite Hp, app_nil_r. repeat split; try tauto; try lia.
    intros a rest. rewrite Hs. f_equal. lia.
Qed.

Lemma scan_int_print z rest :
  in_int z -> starts_with_digit rest = false ->
  scan_int (print_int z ++ rest) = Some (z, rest).
Proof.
  intros Hz Hrest.
  destruct (print_int_shape z Hz) as (ds & Hp & Hl & Hall & Hs).
  rewrite Hp. destruct ds as [|d ds]; [simpl in Hl; lia|].
  simpl in Hall. apply andb_true_iff in Hall. destruct Hall as [Hd Hall].
  pose proof (isdigit_not_space d Hd) as Hsp.
  pose proof (isdigit_code d Hd) as Hc.
  assert (H45 : (code d =? 45) = false) by (apply Z.eqb_neq; lia).
  assert (H43 : (code d =? 43) = false) by (apply Z.eqb_neq; lia).
  unfold scan_int. destruct (z <? 0) eqn:E.
  - apply Z.ltb_lt in E. cbn [app skip_space].
    change (isspace "-"%char) with false. cbv iota.
    change (code "-"%char =? 45) with true. cbv iota.
    cbn [starts_with_digit]. rewrite Hd.
    change (d :: ds ++ rest) with ((d :: ds) ++ rest). rewrite Hs.
    rewrite scan_digits_stop by exact Hrest.
    f_equal. f_equal. rewrite to_int_id; [lia|].
    replace (- (0 * 10 ^ Z.of_nat (length (d :: ds)) + Z.abs z)) with z by lia.
    exact Hz.
  - apply Z.ltb_ge in E. cbn [app skip_space]. rewrite Hsp, H45, H43.
    cbn [starts_with_digit]. rewrite Hd.
    change (d :: ds ++ rest) with ((d :: ds) ++ rest). rewrite Hs.
    rewrite scan_digits_stop by exact Hrest.
    f_equal. f_equal. rewrite to_int_id; [lia|].
    replace (0 * 10 ^ Z.of_nat (length (d :: ds)) + Z.abs z) with z by lia.
    exact Hz.
Qed.

(** ** The loops as maps and filters over the lines read *)

Lemma delete_step_eq taskId temp found l :
  delete_step taskId (temp, found) l
  = if id_matches taskId l then (temp, true) else (temp ++ l, found).
Proof.
  unfold delete_step, id_matches. destruct (scan_id l) as [id|];
    [destruct (id =? taskId)|]; reflexivity.
Qed.

Lemma delete_fold taskId lines : forall temp found,
  fold_left (delete_step taskId) lines (temp, found)
  = (temp ++ concat (filter (fun l => negb (id_matches taskId l)) lines),
     found || existsb (id_matches taskId) lines).
Proof.
  induction lines as [|l lines IH]; intros temp found.
  - simpl. now rewrite app_nil_r, orb_false_r.
  - cbn [fold_left filter existsb]. rewrite delete_step_eq.
    destruct (id_matches taskId l); cbn [negb orb concat]; rewrite IH.
    + f_equal. now destruct found.
    + now rewrite <- app_assoc.
Qed.

Lemma modify_step_eq taskId complete temp found l :
  desc_fits_line l = true ->
  modify_step taskId complete (temp, found) l
  = Done (if task_matches taskId l
          then (temp ++ rewrite_line complete l, true)
          else (temp ++ l, found)).
Proof.
  unfold desc_fits_line, modify_step, task_matches, rewrite_line.
  destruct (scan_task l) as [[[id status] d]|]; [|reflexivity].
  intros ->. now destruct (id =? taskId).
Qed.

Lemma modify_fold taskId complete lines : forall temp found,
  forallb desc_fits_line lines = true ->
  foldM (modify_step taskId complete) lines (temp, found)
  = Done (temp ++ concat (map (fun l => if task_matches taskId l
                                        then rewrite_line complete l
                                        else l) lines),
          found || existsb (task_matches taskId) lines).
Proof.
  induction lines as [|l lines IH]; intros temp found H.
  - simpl. now rewrite app_nil_r, orb_false_r.
  - cbn [forallb] in H. apply andb_true_iff in H. destruct H as [Hl H].
    cbn [foldM map existsb concat]. rewrite modify_step_eq by exact Hl.
    destruct (task_matches taskId l); cbn [bind orb]; rewrite (IH _ _ H).
    + rewrite <- app_assoc. do 2 f_equal. now destruct found.
    + now rewrite <- app_assoc.
Qed.

Lemma list_step_eq rows l :
  desc_fits_line l = true ->
  list_step rows l
  = Done (match row_of_line l with Some r => rows ++ [r] | None => rows end).
Proof.
  unfold desc_fits_line, list_step, row_of_line.
  destruct (scan_task l) as [[[id status] d]|]; [|reflexivity].
  now intros ->.
Qed.

Lemma filter_map_well_formed lines :
  filter_map row_of_line (filter well_formed lines)
  = filter_map row_of_line lines.
Proof.
  induction lines as [|l lines IH]; [reflexivity|].
  cbn [filter filter_map]. unfold well_formed at 1, row_of_line at 2.
  destruct (scan_task l) as [[[id status] d]|] eqn:E.
  - cbn [filter_map]. unfold row_of_line at 1. rewrite E. now rewrite IH.
  - exact IH.
Qed.

Lemma list_fold lines : forall rows,
  forallb desc_fits_line lines = true ->
  foldM list_step lines rows
  = Done (rows ++ filter_map row_of_line (filter well_formed lines)).
Proof.
  rewrite filter_map_well_formed.
  induction lines as [|l lines IH]; intros rows H.
  - simpl. now rewrite app_nil_r.
  - cbn [forallb] in H. apply andb_true_iff in H. destruct H as [Hl H].
    cbn [foldM filter_map]. rewrite list_step_eq by exact Hl.
    destruct (row_of_line l) as [r|]; cbn [bind]; rewrite (IH _ H).
    + now rewrite <- app_assoc.
    + reflexivity.
Qed.

Lemma max_step_max m l :
  max_step m l = match scan_id l with Some id => Z.max m id | None => m end.
Proof.
  unfold max_step. destruct (scan_id l) as [id|]; [|reflexivity].
  destruct (id >? m) eqn:E.
  - apply Z.gtb_lt in E. lia.
  - rewrite Z.gtb_ltb in E. apply Z.ltb_ge in E. lia.
Qed.

Lemma max_fold lines : forall m,
  0 <= m ->
  fold_left max_step lines m = Z.max m (max_of (filter_map scan_id lines)).
Proof.
  induction lines as [|l lines IH]; intros m Hm.
  - unfold max_of. simpl. lia.
  - cbn [fold_left filter_map]. rewrite max_step_max.
    destruct (scan_id l) as [id|].
    + rewrite IH by lia. unfold max_of. cbn [fold_right]. lia.
    + now apply IH.
Qed.

Lemma max_of_nonneg ids : 0 <= max_of ids.
Proof. induction ids; unfold max_of in *; simpl; lia. Qed.

Lemma max_of_bound ids : Forall (fun i => i <= max_of ids) ids.
Proof.
  induction ids as [|i ids IH]; constructor.
  - unfold max_of. simpl. lia.
  - eapply Forall_impl; [|exact IH]. unfold max_of. simpl. intros; lia.
Qed.

Lemma filter_map_app {A B} (f : A -> option B) l1 l2 :
  filter_map f (l1 ++ l2) = filter_map f l1 ++ filter_map f l2.
Proof.
  induction l1 as [|a l1 IH]; simpl; [reflexivity|].
  destruct (f a); simpl; now rewrite IH.
Qed.

(** ** The next id *)

Lemma scan_int_range s v rest : scan_int s = Some (v, rest) -> in_int v.
Proof.
  unfold scan_int.
  destruct (match skip_space s with
            | [] => (false, skip_space s)
            | c :: r => if code c =? 45 then (true, r)
                        else if code c =? 43 then (false, r)
                        else (false, skip_space s)
            end) as [neg s2].
  destruct (starts_with_digit s2); [|discriminate].
  destruct (scan_digits 0 s2) as [v' rest'].
  intros H. injection H as <- _. apply to_int_range.
Qed.

Lemma scan_id_range l i : scan_id l = Some i -> in_int i.
Proof.
  unfold scan_id. destruct (scan_int l) as [[v rest]|] eqn:E; [|discriminate].
  intros H. injection H as <-. eapply scan_int_range; eauto.
Qed.

Lemma filter_map_Forall {A B} (f : A -> option B) (P : B -> Prop) l :
  (forall a b, f a = Some b -> P b) -> Forall P (filter_map f l).
Proof.
  intros H. induction l as [|a l IH]; simpl; [constructor|].
  destruct (f a) eqn:E; [constructor; eauto|exact IH].
Qed.

Lemma disk_ids_range st : Forall in_int (disk_ids st).
Proof.
  destruct st as [f|]; simpl; [|constructor].
  apply filter_map_Forall. apply scan_id_range.
Qed.

Lemma max_of_range ids : Forall in_int ids -> 0 <= max_of ids <= INT_MAX.
Proof.
  induction 1 as [|i ids Hi _ IH]; unfold max_of in *; simpl.
  - unfold INT_MAX; lia.
  - unfold in_int in Hi. lia.
Qed.

Lemma max_of_zero ids : max_of ids = 0 <-> Forall (fun i => i <= 0) ids.
Proof.
  induction ids as [|i ids IH]; unfold max_of in *; simpl.
  - split; [constructor|reflexivity].
  - pose proof (max_of_nonneg ids) as Hn. unfold max_of in Hn. split.
    + intros H. constructor; [lia|]. apply IH. lia.
    + intros H. inversion H; subst. apply IH in H3. lia.
Qed.

Lemma getNextTaskId_eq st :
  getNextTaskId st = wrap32 (max_of (disk_ids st) + 1).
Proof.
  destruct st as [f|]; [|reflexivity]. unfold getNextTaskId, disk_ids.
  rewrite max_fold by lia. f_equal.
  pose proof (max_of_nonneg (filter_map scan_id (file_lines f))). lia.
Qed.

Lemma wrap32_small z : in_int z -> wrap32 z = z.
Proof.
  unfold in_int, INT_MIN, INT_MAX, wrap32. intros H.
  rewrite Z.mod_small by lia. lia.
Qed.

Lemma disk_ids_created st :
  disk_ids (Some match st with Some f => f | None => [] end) = disk_ids st.
Proof. now destruct st. Qed.

(** C4, as the program has it: the maximum starts from 0, so the next
    id is one more than the largest positive id that leads a line read,
    with the wrap-around of [int], and it is 1 exactly when the file is
    absent or no such id is positive. *)
Theorem getNextTaskId_max_from_zero (st : store) :
  getNextTaskId st = wrap32 (max_of (disk_ids st) + 1) /\
  (max_of (disk_ids st) < INT_MAX ->
   getNextTaskId st = max_of (disk_ids st) + 1) /\
  (getNextTaskId st = 1 <-> Forall (fun i => i <= 0) (disk_ids st)).
Proof.
  pose proof (max_of_range _ (disk_ids_range st)) as Hr.
  rewrite getNextTaskId_eq. split; [reflexivity|]. split.
  - intros H. apply wrap32_small. unfold in_int, INT_MIN, INT_MAX in *. lia.
  - rewrite <- max_of_zero. split.
    + intros H.
      destruct (Z.eq_dec (max_of (disk_ids st)) INT_MAX) as [E|E].
      * rewrite E in H. vm_compute in H. discriminate.
      * rewrite wrap32_small in H
          by (unfold in_int, INT_MIN, INT_MAX in *; lia). lia.
    + intros ->. reflexivity.
Qed.

(** C4 as stated fails: with the only id on disk negative the program
    returns 1, where the largest parsed id plus one is -4, and it
    returns 1 although the file has a parsable id. *)
Lemma getNextTaskId_negative_id :
  let f := str "-5,0,x
" in
  disk_ids (Some f) = [-5] /\
  spec_NextId (disk_ids (Some f)) = -4 /\
  getNextTaskId (Some f) = 1 /\
  getNextTaskId (Some f) <> spec_NextId (disk_ids (Some f)).
Proof. vm_compute. repeat split; congruence. Qed.

(** ** Ids along a sequence of adds and deletes *)

Lemma step_add_fresh e st o : add_fresh (snd (step e st o)).
Proof.
  destruct o as [d|t]; unfold step.
  - unfold addTask. destruct (append_ok e); cbv beta iota; cbn [snd add_fresh];
      [|exact I].
    rewrite getNextTaskId_eq, disk_ids_created.
    pose proof (max_of_range _ (disk_ids_range st)) as Hr.
    split; [reflexivity|]. intros H.
    rewrite wrap32_small by (unfold in_int, INT_MIN, INT_MAX in *; lia).
    split; [reflexivity|].
    eapply Forall_impl; [|apply max_of_bound]. simpl. intros; lia.
  - destruct (deleteTask e t st) as [st' []]; exact I.
Qed.

(** Along every sequence of adds and deletes, each add gets its id
    from the ids on disk at that moment. *)
Lemma run_add_fresh (e : env) (st : store) (ops : list op) :
  Forall add_fresh (run e st ops).
Proof.
  revert st. induction ops as [|o ops IH]; intros st; simpl.
  - constructor.
  - pose proof (step_add_fresh e st o) as H.
    destruct (step e st o) as [st' ev]. constructor; [exact H|apply IH].
Qed.

(** C1 as stated fails: from an absent store, add, delete 1, add gives
    the id 1 twice. *)
Lemma add_reuses_deleted_id :
  let ops := [Add (str "a"); Delete 1; Add (str "b")] in
  run env_ok None ops
  = [Assigned None 1; Removed 1; Assigned (Some []) 1] /\
  reuse_free [] [] (run env_ok None ops) = false.
Proof. vm_compute. split; reflexivity. Qed.

(** ** Buffers read back from their concatenation *)

Lemma file_bufs_concat M : well_chunked M -> file_bufs (concat M) = M.
Proof.
  induction 1 as [|b M Hb Hc _ IH]; [reflexivity|].
  cbn [concat]. rewrite (file_bufs_cons (b ++ concat M) b (concat M)).
  - now rewrite IH.
  - destruct b; [congruence|discriminate].
  - destruct Hc as [Hc|[-> Hc]]; [apply Hc|].
    simpl. now rewrite app_nil_r.
Qed.

Lemma file_bufs_well_chunked f : well_chunked (file_bufs f).
Proof.
  induction f as [|s b r Hs E IH] using file_read_ind; [constructor|].
  rewrite (file_bufs_cons _ _ _ Hs E).
  pose proof (fgets_aux_shape _ _ _ _ E) as Hsh.
  assert (Hb : b <> []).
  { change (LINE_SIZE - 1)%nat with (S 274) in E.
    eapply fgets_aux_nonempty; eauto. }
  constructor; [exact Hb| |exact IH].
  destruct r as [|c r].
  - right. split; [reflexivity|].
    apply fgets_aux_app in E as E'. rewrite app_nil_r in E'. now subst s.
  - left. eapply shape_closed; [exact Hsh|discriminate].
Qed.

Lemma well_chunked_filter P M :
  well_chunked M -> well_chunked (filter P M).
Proof.
  induction 1 as [|b M Hb Hc _ IH]; simpl; [constructor|].
  destruct (P b); [|exact IH].
  constructor; [exact Hb| |exact IH].
  destruct Hc as [Hc|[-> Hc]]; [now left|now right].
Qed.

Lemma split_lines_well_chunked f :
  short_lines f = true -> well_chunked (split_lines f).
Proof.
  intros H. rewrite <- file_bufs_short by exact H.
  apply file_bufs_well_chunked.
Qed.

(** ** A NUL ends a number as any other byte does *)

Lemma nul_not_space c : is_nul c = true -> isspace c = false.
Proof.
  unfold is_nul, isspace. intros H. apply Z.eqb_eq in H. now rewrite H.
Qed.

Lemma nul_not_digit c : is_nul c = true -> isdigit c = false.
Proof.
  unfold is_nul, isdigit. intros H. apply Z.eqb_eq in H. now rewrite H.
Qed.

Lemma skip_space_c_str s : skip_space (c_str s) = c_str (skip_space s).
Proof.
  induction s as [|c s IH]; [reflexivity|]. simpl.
  destruct (is_nul c) eqn:E.
  - rewrite (nul_not_space c E). simpl. now rewrite E.
  - simpl. destruct (isspace c); [exact IH|]. simpl. now rewrite E.
Qed.

Lemma scan_digits_c_str s : forall a,
  scan_digits a (c_str s)
  = (fst (scan_digits a s), c_str (snd (scan_digits a s))).
Proof.
  induction s as [|c s IH]; intros a; [reflexivity|]. simpl.
  destruct (is_nul c) eqn:E.
  - rewrite (nul_not_digit c E). simpl. now rewrite E.
  - simpl. destruct (isdigit c); [apply IH|]. simpl. now rewrite E.
Qed.

Lemma starts_with_digit_c_str s :
  starts_with_digit (c_str s) = starts_with_digit s.
Proof.
  destruct s as [|c s]; [reflexivity|]. simpl.
  destruct (is_nul c) eqn:E; [|reflexivity].
  now rewrite (nul_not_digit c E).
Qed.

Lemma scan_id_c_str s : scan_id (c_str s) = scan_id s.
Proof.
  unfold scan_id, scan_int. rewrite skip_space_c_str.
  destruct (skip_space s) as [|c r]; [reflexivity|].
  cbn [c_str]. destruct (is_nul c) eqn:E.
  - unfold is_nul in E. apply Z.eqb_eq in E. rewrite E.
    cbn [Z.eqb]. cbn [starts_with_digit].
    assert (Hd : isdigit c = false)
      by (apply nul_not_digit; unfold is_nul; now rewrite E).
    now rewrite Hd.
  - destruct (code c =? 45).
    + rewrite starts_with_digit_c_str, scan_digits_c_str.
      destruct (starts_with_digit r); [|reflexivity].
      now destruct (scan_digits 0 r).
    + destruct (code c =? 43).
      * rewrite starts_with_digit_c_str, scan_digits_c_str.
        destruct (starts_with_digit r); [|reflexivity].
        now destruct (scan_digits 0 r).
      * change (c :: c_str r) with (c :: c_str r).
        replace (c :: c_str r) with (c_str (c :: r))
          by (simpl; now rewrite E).
        rewrite starts_with_digit_c_str, scan_digits_c_str.
        destruct (starts_with_digit (c :: r)); [|reflexivity].
        now destruct (scan_digits 0 (c :: r)).
Qed.

Lemma filter_map_scan_id_c_str M :
  filter_map scan_id (map c_str M) = filter_map scan_id M.
Proof.
  induction M as [|b M IH]; [reflexivity|]. simpl.
  rewrite scan_id_c_str, IH. reflexivity.
Qed.

Lemma filter_map_has_id M :
  filter_map scan_id (filter has_leading_id M) = filter_map scan_id M.
Proof.
  induction M as [|b M IH]; [reflexivity|]. simpl. unfold has_leading_id at 1.
  destruct (scan_id b) eqn:E; simpl; [rewrite E|]; now rewrite IH.
Qed.

Lemma disk_ids_bufs f :
  disk_ids (Some f) = filter_map scan_id (file_bufs f).
Proof. unfold disk_ids, file_lines. apply filter_map_scan_id_c_str. Qed.

(** ** Deleting *)

(** C2, as the program has it: on a text file whose lines fit the read
    buffer, Delete(id) omits exactly the lines whose leading integer is
    [id], well-formed records or not, copies every other line
    unchanged, and reports a deletion when it omitted a line. *)
Theorem deleteTask_omits_by_leading_id (e : env) (f : list ascii) (id : Z) :
  home_set e = true -> temp_ok e = true ->
  text_file f = true -> short_lines f = true ->
  deleteTask e id (Some f)
  = (Some (concat (filter (fun l => negb (id_matches id l)) (split_lines f))),
     if existsb (id_matches id) (split_lines f)
     then Deleted id else NotFound id).
Proof.
  intros Hh Ht Hf Hs. unfold deleteTask. rewrite Hh, Ht. cbn [negb].
  rewrite delete_fold, file_lines_text, file_bufs_short by assumption.
  reflexivity.
Qed.

Lemma deleteTask_omits_by_leading_id_witness :
  deleteTask env_ok 2 (Some (str "1,0,a
2,1,b
zzz
"))
  = (Some (str "1,0,a
zzz
"), Deleted 2).
Proof.
  rewrite (deleteTask_omits_by_leading_id env_ok _ 2);
    [reflexivity|reflexivity|reflexivity|reflexivity|reflexivity].
Defined.

(** C2 as stated fails: a line that is not a well-formed record but
    starts with the integer 5 is removed by Delete(5), not copied. *)
Lemma deleteTask_removes_malformed_line :
  let f := str "5,abc
" in
  well_formed f = false /\ id_matches 5 f = true /\
  deleteTask env_ok 5 (Some f) = (Some [], Deleted 5).
Proof. vm_compute. repeat split; reflexivity. Qed.

(** ** Lines that do not count for the next id *)

Lemma filter_none {A} (P : A -> bool) l :
  forallb (fun a => negb (P a)) l = true -> filter P l = [].
Proof.
  induction l as [|a l IH]; simpl; [reflexivity|].
  intros H. apply andb_true_iff in H. destruct H as [Ha Hl].
  apply negb_true_iff in Ha. rewrite Ha. now apply IH.
Qed.

(** C3, as the program has it: on a file whose lines fit the read
    buffer, the lines without a leading integer contribute nothing to
    the next id, which is the same with them removed, and a file whose
    lines all lack a leading integer yields 1.  A line that starts
    with an integer counts, well-formed record or not. *)
Theorem getNextTaskId_ignores_lines_without_id (f : list ascii) :
  short_lines f = true ->
  getNextTaskId (Some f)
  = getNextTaskId (Some (concat (filter has_leading_id (split_lines f)))) /\
  (forallb (fun l => negb (has_leading_id l)) (split_lines f) = true ->
   getNextTaskId (Some f) = 1).
Proof.
  intros Hs.
  assert (E : getNextTaskId (Some f)
              = getNextTaskId
                  (Some (concat (filter has_leading_id (split_lines f))))).
  { rewrite !getNextTaskId_eq, !disk_ids_bufs.
    rewrite file_bufs_concat
      by (apply well_chunked_filter, split_lines_well_chunked, Hs).
    now rewrite filter_map_has_id, file_bufs_short. }
  split; [exact E|].
  intros Hn. rewrite E, (filter_none _ _ Hn). reflexivity.
Qed.

Lemma getNextTaskId_ignores_lines_without_id_witness :
  getNextTaskId (Some (str "zzz
3,0,a
,1
"))
  = getNextTaskId (Some (str "3,0,a
")).
Proof.
  exact (proj1 (getNextTaskId_ignores_lines_without_id (str "zzz
3,0,a
,1
") eq_refl)).
Defined.

(** C3 as stated fails: a line that is not a well-formed record counts
    for the next id when it starts with an integer. *)
Lemma getNextTaskId_counts_malformed_line :
  let f := str "7,garbage
" in
  well_formed f = false /\ getNextTaskId (Some f) = 8.
Proof. vm_compute. split; reflexivity. Qed.

(** ** Changing a status, listing *)

Lemma file_lines_short f :
  text_file f = true -> short_lines f = true ->
  file_lines f = split_lines f.
Proof.
  intros Ht Hs. now rewrite file_lines_text, file_bufs_short.
Qed.

Lemma modifyTaskStatus_lines e f i s :
  home_set e = true -> temp_ok e = true -> desc_fits f = true ->
  modifyTaskStatus e i s (Some f)
  = Done (Some (concat (map (fun l => if task_matches i l
                                      then rewrite_line s l else l)
                          (file_lines f))),
          if existsb (task_matches i) (file_lines f)
          then Marked i s else NotFound i).
Proof.
  intros Hh Ht Hd. unfold modifyTaskStatus, modify_loop.
  rewrite Hh, Ht. cbn [negb].
  rewrite modify_fold by exact Hd. reflexivity.
Qed.

Lemma listTasks_lines f :
  desc_fits f = true ->
  listTasks (Some f)
  = Done (Listing (filter_map row_of_line (filter well_formed (file_lines f)))).
Proof.
  intros Hd. unfold listTasks, list_loop.
  rewrite list_fold by exact Hd. reflexivity.
Qed.

(** C5, as the program has it: on a text file whose lines fit the read
    buffer and whose descriptions fit theirs, SetStatus(i, s) rewrites
    the well-formed lines with id [i] and writes back every other line
    byte for byte, and List yields a row for the well-formed lines
    only. *)
Theorem modifyTaskStatus_keeps_other_lines
  (e : env) (f : list ascii) (i : Z) (s : bool) :
  home_set e = true -> temp_ok e = true ->
  text_file f = true -> short_lines f = true -> desc_fits f = true ->
  modifyTaskStatus e i s (Some f)
  = Done (Some (concat (map (fun l => if task_matches i l
                                      then rewrite_line s l else l)
                          (split_lines f))),
          if existsb (task_matches i) (split_lines f)
          then Marked i s else NotFound i) /\
  listTasks (Some f)
  = Done (Listing (filter_map row_of_line
                     (filter well_formed (split_lines f)))).
Proof.
  intros Hh Ht Hf Hs Hd.
  rewrite modifyTaskStatus_lines, listTasks_lines by assumption.
  now rewrite file_lines_short.
Qed.

Lemma modifyTaskStatus_keeps_other_lines_witness :
  modifyTaskStatus env_ok 1 true (Some (str "1,0,a
garbage
2,0,b
"))
  = Done (Some (str "1,1,a
garbage
2,0,b
"), Marked 1 true) /\
  listTasks (Some (str "1,0,a
garbage
2,0,b
"))
  = Done (Listing [Build_row 1 PENDING (str "a");
                   Build_row 2 PENDING (str "b")]).
Proof.
  exact (modifyTaskStatus_keeps_other_lines env_ok (str "1,0,a
garbage
2,0,b
") 1 true eq_refl eq_refl eq_refl eq_refl eq_refl).
Defined.

(** C5 as stated fails on a line longer than the read buffer: the
    line of 275 x followed by 1,0,foo is not a record, yet its tail is
    read as a line of its own, rewritten by SetStatus(1, done) and
    listed. *)
Lemma modifyTaskStatus_rewrites_long_line :
  let long := repeat "x"%char 275 ++ str "1,0,foo
" in
  let f := long ++ str "1,0,bar
" in
  text_file f = true /\
  split_lines f = [long; str "1,0,bar
"] /\
  well_formed long = false /\
  modifyTaskStatus env_ok 1 true (Some f)
  = Done (Some (repeat "x"%char 275 ++ str "1,1,foo
1,1,bar
"), Marked 1 true) /\
  listTasks (Some f)
  = Done (Listing [Build_row 1 PENDING (str "foo");
                   Build_row 1 PENDING (str "bar")]).
Proof. vm_compute. repeat split; reflexivity. Qed.

(** ** Adding, then listing *)

(** C6: from an absent or empty store, Add("buy milk") then List()
    yields exactly one row, pending, with description "buy milk". *)
Theorem add_then_list_round_trip (e : env) (st : store) :
  append_ok e = true ->
  st = None \/ st = Some [] ->
  fst (addTask e (str "buy milk") st) = Some (str "1,0,buy milk
") /\
  listTasks (fst (addTask e (str "buy milk") st))
  = Done (Listing [Build_row 1 PENDING (str "buy milk")]).
Proof.
  intros Ha Hst. unfold addTask. rewrite Ha.
  destruct Hst as [-> | ->]; vm_compute; split; reflexivity.
Qed.

Lemma add_then_list_round_trip_witness :
  listTasks (fst (addTask env_ok (str "buy milk") None))
  = Done (Listing [Build_row 1 PENDING (str "buy milk")]).
Proof.
  exact (proj2 (add_then_list_round_trip env_ok None eq_refl
                  (or_introl eq_refl))).
Defined.

(** ** An id that is not found *)

Lemma map_unmatched {A} (P : A -> bool) (g : A -> A) l :
  forallb (fun a => negb (P a)) l = true ->
  map (fun a => if P a then g a else a) l = l.
Proof.
  induction l as [|a l IH]; simpl; [reflexivity|].
  intros H. apply andb_true_iff in H. destruct H as [Ha Hl].
  apply negb_true_iff in Ha. rewrite Ha. now rewrite IH.
Qed.

Lemma filter_all {A} (P : A -> bool) l :
  forallb P l = true -> filter P l = l.
Proof.
  induction l as [|a l IH]; simpl; [reflexivity|].
  intros H. apply andb_true_iff in H. destruct H as [Ha Hl].
  rewrite Ha. now rewrite IH.
Qed.

Lemma existsb_none {A} (P : A -> bool) l :
  forallb (fun a => negb (P a)) l = true -> existsb P l = false.
Proof.
  induction l as [|a l IH]; simpl; [reflexivity|].
  intros H. apply andb_true_iff in H. destruct H as [Ha Hl].
  apply negb_true_iff in Ha. rewrite Ha. now apply IH.
Qed.

(** C8, as the program has it: on a text file whose lines fit the read
    buffer, with a positive id given on the command line, [done] and
    [pending] report "not found", rewrite the file byte for byte and
    exit with status 0 when no well-formed line has the id (and the
    descriptions fit their buffer); [delete] does so when no line, a
    well-formed record or not, starts with the id. *)
Theorem not_found_rewrites_identical_copy
  (e : env) (f : list ascii) (prog arg : cstring) :
  home_set e = true -> dir_ok e = true -> temp_ok e = true ->
  text_file f = true -> short_lines f = true ->
  0 < atoi arg ->
  (desc_fits f = true ->
   forallb (fun l => negb (task_matches (atoi arg) l)) (split_lines f) = true ->
   main e [prog; str "done"; arg] (Some f)
   = Done (0, Some f, NotFound (atoi arg)) /\
   main e [prog; str "pending"; arg] (Some f)
   = Done (0, Some f, NotFound (atoi arg))) /\
  (forallb (fun l => negb (id_matches (atoi arg) l)) (split_lines f) = true ->
   main e [prog; str "delete"; arg] (Some f)
   = Done (0, Some f, NotFound (atoi arg))).
Proof.
  intros Hh Hd Ht Hf Hs Hid.
  assert (Hpos : (atoi arg <=? 0) = false) by (apply Z.leb_gt; exact Hid).
  split.
  - intros Hfit Hno.
    assert (E : forall c, modifyTaskStatus e (atoi arg) c (Some f)
                          = Done (Some f, NotFound (atoi arg))).
    { intros c. rewrite modifyTaskStatus_lines by assumption.
      rewrite file_lines_short by assumption.
      now rewrite map_unmatched, existsb_none, concat_split_lines. }
    unfold main. rewrite Hh, Hd. cbn [negb].
    change (strcmp_eq (str "done") (str "add")) with false.
    change (strcmp_eq (str "done") (str "list")) with false.
    change (strcmp_eq (str "done") (str "done")) with true.
    change (strcmp_eq (str "pending") (str "add")) with false.
    change (strcmp_eq (str "pending") (str "list")) with false.
    change (strcmp_eq (str "pending") (str "done")) with false.
    change (strcmp_eq (str "pending") (str "pending")) with true.
    cbv iota. rewrite Hpos, !E. split; reflexivity.
  - intros Hno. unfold main. rewrite Hh, Hd. cbn [negb].
    change (strcmp_eq (str "delete") (str "add")) with false.
    change (strcmp_eq (str "delete") (str "list")) with false.
    change (strcmp_eq (str "delete") (str "done")) with false.
    change (strcmp_eq (str "delete") (str "pending")) with false.
    change (strcmp_eq (str "delete") (str "delete")) with true.
    cbv iota. rewrite Hpos. unfold deleteTask. rewrite Hh, Ht. cbn [negb].
    rewrite delete_fold, file_lines_short by assumption.
    rewrite filter_all, existsb_none, concat_split_lines by assumption.
    reflexivity.
Qed.

Lemma not_found_rewrites_identical_copy_witness :
  main env_ok [str "tasakman"; str "delete"; str "9999"] (Some (str "1,0,a
2,1,b
"))
  = Done (0, Some (str "1,0,a
2,1,b
"), NotFound 9999).
Proof.
  exact (proj2 (not_found_rewrites_identical_copy env_ok (str "1,0,a
2,1,b
") (str "tasakman") (str "9999")
                  eq_refl eq_refl eq_refl eq_refl eq_refl eq_refl) eq_refl).
Defined.

(** C8 as stated fails.  The id 2 is in no well-formed line of the
    first file, yet [delete 2] finds the line that starts with it and
    removes it.  The id 3 is in no well-formed line of the second
    file, one line longer than the read buffer, yet [done 3] finds the
    tail of that line and rewrites it. *)
Lemma found_outside_well_formed_lines :
  let f := str "1,0,a
2
" in
  let long := repeat "y"%char 275 ++ str "3,0,c
" in
  (forallb (fun l => negb (task_matches 2 l)) (split_lines f) = true /\
   main env_ok [str "tasakman"; str "delete"; str "2"] (Some f)
   = Done (0, Some (str "1,0,a
"), Deleted 2)) /\
  (split_lines long = [long] /\ well_formed long = false /\
   main env_ok [str "tasakman"; str "done"; str "3"] (Some long)
   = Done (0, Some (repeat "y"%char 275 ++ str "3,1,c
"), Marked 3 true)).
Proof. vm_compute. repeat split; reflexivity. Qed.

(** ** A rewritten line is read back as the same record *)

Lemma digit_not_nl c : isdigit c = true -> is_nl c = false.
Proof.
  intros H. apply isdigit_code in H. unfold is_nl. apply Z.eqb_neq. lia.
Qed.

Lemma digit_not_nul c : isdigit c = true -> is_nul c = false.
Proof.
  intros H. apply isdigit_code in H. unfold is_nul. apply Z.eqb_neq. lia.
Qed.

Lemma all_digits_no_nl ds : all_digits ds = true -> no_nl ds = true.
Proof.
  induction ds as [|c ds IH]; simpl; [reflexivity|]. intros H.
  apply andb_true_iff in H. destruct H as [Hc Hds].
  now rewrite (digit_not_nl c Hc), IH.
Qed.

Lemma all_digits_text ds : all_digits ds = true -> text_file ds = true.
Proof.
  induction ds as [|c ds IH]; simpl; [reflexivity|]. intros H.
  apply andb_true_iff in H. destruct H as [Hc Hds].
  now rewrite (digit_not_nul c Hc), IH.
Qed.

Lemma print_int_props z :
  in_int z ->
  (length (print_int z) <= 11)%nat /\
  no_nl (print_int z) = true /\ text_file (print_int z) = true.
Proof.
  intros Hz. destruct (print_int_shape z Hz) as (ds & Hp & Hl & Hall & _).
  rewrite Hp. rewrite length_app, no_nl_app, text_file_app.
  rewrite (all_digits_no_nl ds Hall), (all_digits_text ds Hall).
  destruct (z <? 0); simpl; repeat split; lia.
Qed.

Lemma scan_not_nl_line d c r :
  no_nl d = true -> is_nl c = true -> scan_not_nl (d ++ c :: r) = d.
Proof.
  intros Hd Hc. induction d as [|a d IH]; simpl in *.
  - now rewrite Hc.
  - apply andb_true_iff in Hd. destruct Hd as [Ha Hd].
    apply negb_true_iff in Ha. rewrite Ha. now rewrite IH.
Qed.

Lemma scan_task_line i st d :
  in_int i -> in_int st -> no_nl d = true -> d <> [] ->
  scan_task (task_line i st d) = Some (i, st, d).
Proof.
  intros Hi Hst Hd Hne. unfold task_line, scan_task.
  rewrite scan_int_print by (exact Hi || reflexivity).
  cbn [app]. change (code COMMA =? 44) with true. cbv iota.
  rewrite scan_int_print by (exact Hst || reflexivity).
  cbn [app]. change (code COMMA =? 44) with true. cbv iota.
  rewrite scan_not_nl_line by (exact Hd || reflexivity).
  destruct d; [congruence|reflexivity].
Qed.

(** ** What [sscanf] returns is part of the line *)

Lemma skip_space_suffix s : exists p, s = p ++ skip_space s.
Proof.
  induction s as [|c s [p IH]]; [now exists []|]. simpl.
  destruct (isspace c).
  - exists (c :: p). simpl. now f_equal.
  - now exists [].
Qed.

Lemma scan_digits_suffix s : forall a,
  exists p, s = p ++ snd (scan_digits a s).
Proof.
  induction s as [|c s IH]; intros a; [now exists []|]. simpl.
  destruct (isdigit c).
  - destruct (IH (10 * a + digit_val c)) as [p Hp].
    exists (c :: p). simpl. now f_equal.
  - now exists [].
Qed.

Lemma scan_int_suffix s v rest :
  scan_int s = Some (v, rest) -> exists p, s = p ++ rest.
Proof.
  unfold scan_int. destruct (skip_space_suffix s) as [p0 Hp0].
  assert (H : forall (neg : bool) (s2 q : cstring), skip_space s = q ++ s2 ->
      (if starts_with_digit s2
       then let '(v0, rest0) := scan_digits 0 s2 in
            Some (to_int (if neg then - v0 else v0), rest0)
       else None) = Some (v, rest) ->
      exists p, s = p ++ rest).
  { intros neg s2 q Hq H. destruct (starts_with_digit s2); [|discriminate].
    destruct (scan_digits_suffix s2 0) as [p2 Hp2].
    destruct (scan_digits 0 s2) as [v0 rest0]. simpl in Hp2.
    injection H as _ <-. exists (p0 ++ q ++ p2).
    rewrite Hp0 at 1. rewrite Hq, Hp2 at 1. now rewrite <- !app_assoc. }
  destruct (skip_space s) as [|c r] eqn:E.
  - apply (H false [] []). reflexivity.
  - destruct (code c =? 45).
    + apply (H true r [c]). reflexivity.
    + destruct (code c =? 43).
      * apply (H false r [c]). reflexivity.
      * apply (H false (c :: r) []). reflexivity.
Qed.

Lemma scan_not_nl_prefix s : exists q, s = scan_not_nl s ++ q.
Proof.
  induction s as [|c s [q IH]]; [now exists []|]. simpl.
  destruct (is_nl c).
  - now exists (c :: s).
  - exists q. simpl. now f_equal.
Qed.

Lemma no_nl_scan_not_nl s : no_nl (scan_not_nl s) = true.
Proof.
  induction s as [|c s IH]; [reflexivity|]. simpl.
  destruct (is_nl c) eqn:E; [reflexivity|]. simpl. now rewrite E.
Qed.

(** The fields of a well-formed line. *)
Lemma scan_task_fields l i st d :
  scan_task l = Some (i, st, d) ->
  in_int i /\ in_int st /\ no_nl d = true /\ d <> [] /\
  (text_file l = true -> text_file d = true).
Proof.
  unfold scan_task.
  destruct (scan_int l) as [[i0 [|c1 r1]]|] eqn:E1; try discriminate.
  destruct (code c1 =? 44); [|discriminate].
  destruct (scan_int r1) as [[st0 [|c2 r2]]|] eqn:E2; try discriminate.
  destruct (code c2 =? 44); [|discriminate].
  destruct (scan_not_nl r2) as [|a d0] eqn:E3; [discriminate|].
  intros H. injection H as <- <- <-.
  split; [eapply scan_int_range; eauto|].
  split; [eapply scan_int_range; eauto|].
  split; [rewrite <- E3; apply no_nl_scan_not_nl|].
  split; [discriminate|].
  intros Ht.
  destruct (scan_int_suffix _ _ _ E1) as [p1 Hp1].
  destruct (scan_int_suffix _ _ _ E2) as [p2 Hp2].
  destruct (scan_not_nl_prefix r2) as [q Hq]. rewrite E3 in Hq.
  rewrite Hp1 in Ht. rewrite text_file_app in Ht.
  apply andb_true_iff in Ht. destruct Ht as [_ Ht].
  change (c1 :: r1) with ([c1] ++ r1) in Ht. rewrite text_file_app in Ht.
  apply andb_true_iff in Ht. destruct Ht as [_ Ht].
  rewrite Hp2 in Ht. rewrite text_file_app in Ht.
  apply andb_true_iff in Ht. destruct Ht as [_ Ht].
  change (c2 :: r2) with ([c2] ++ r2) in Ht. rewrite text_file_app in Ht.
  apply andb_true_iff in Ht. destruct Ht as [_ Ht].
  rewrite Hq in Ht. rewrite text_file_app in Ht.
  apply andb_true_iff in Ht. now destruct Ht as [Ht _].
Qed.

(** ** Changing a status twice *)

Lemma status_in_int (c : bool) : in_int (if c then 1 else 0).
Proof. destruct c; unfold in_int, INT_MIN, INT_MAX; lia. Qed.

Lemma task_line_closed i (c : bool) d :
  in_int i -> no_nl d = true -> (length d < MAX_DESCRIPTION_LEN)%nat ->
  closed (LINE_SIZE - 1) (task_line i (if c then 1 else 0) d).
Proof.
  intros Hi Hd Hl. unfold task_line.
  destruct (print_int_props i Hi) as (Hli & Hni & _).
  replace (print_int i ++ [COMMA] ++ print_int (if c then 1 else 0)
           ++ [COMMA] ++ d ++ [NL])
    with ((print_int i ++ [COMMA] ++ print_int (if c then 1 else 0)
           ++ [COMMA] ++ d) ++ [NL])
    by (now rewrite <- !app_assoc).
  apply closed_line; [reflexivity| |].
  - rewrite !no_nl_app, Hni, Hd. now destruct c.
  - rewrite !length_app.
    assert (length (print_int (if c then 1 else 0)) = 1%nat)
      by (now destruct c).
    unfold MAX_DESCRIPTION_LEN in Hl. unfold LINE_SIZE, MAX_DESCRIPTION_LEN.
    simpl length. lia.
Qed.

Lemma task_line_text i st d :
  in_int i -> in_int st -> text_file d = true ->
  text_file (task_line i st d) = true.
Proof.
  intros Hi Hst Hd. unfold task_line.
  destruct (print_int_props i Hi) as (_ & _ & Hti).
  destruct (print_int_props st Hst) as (_ & _ & Hts).
  now rewrite !text_file_app, Hti, Hts, Hd.
Qed.

Lemma task_line_nonempty i st d : task_line i st d <> [].
Proof.
  unfold task_line. intros H. apply (f_equal (@length ascii)) in H.
  rewrite !length_app in H. simpl in H. lia.
Qed.

(** The line written for a line read is again a line of the file, it
    carries the same id, and writing it again changes nothing. *)
Lemma set_status_again taskId c l :
  text_file l = true -> desc_fits_line l = true -> l <> [] ->
  task_matches taskId (set_status taskId c l) = task_matches taskId l /\
  set_status taskId c (set_status taskId c l) = set_status taskId c l /\
  desc_fits_line (set_status taskId c l) = true /\
  text_file (set_status taskId c l) = true /\
  set_status taskId c l <> [] /\
  (set_status taskId c l = l \/
   closed (LINE_SIZE - 1) (set_status taskId c l)).
Proof.
  intros Ht Hf Hne.
  assert (Hsame : set_status taskId c l = l ->
    task_matches taskId (set_status taskId c l) = task_matches taskId l /\
    set_status taskId c (set_status taskId c l) = set_status taskId c l /\
    desc_fits_line (set_status taskId c l) = true /\
    text_file (set_status taskId c l) = true /\
    set_status taskId c l <> [] /\
    (set_status taskId c l = l \/
     closed (LINE_SIZE - 1) (set_status taskId c l))).
  { intros S. rewrite !S. repeat split; auto. }
  destruct (scan_task l) as [[[i st] d]|] eqn:E.
  - destruct (i =? taskId) eqn:Ei.
    + destruct (scan_task_fields _ _ _ _ E) as (Hi & _ & Hn & Hd & Htd).
      unfold desc_fits_line in Hf. rewrite E in Hf. apply Nat.ltb_lt in Hf.
      assert (S : set_status taskId c l
                  = task_line i (if c then 1 else 0) d).
      { unfold set_status, task_matches, rewrite_line. now rewrite E, Ei. }
      assert (E' : scan_task (task_line i (if c then 1 else 0) d)
                   = Some (i, if c then 1 else 0, d))
        by (apply scan_task_line; auto using status_in_int).
      rewrite !S. repeat split.
      * unfold task_matches. now rewrite E', E.
      * unfold set_status, task_matches, rewrite_line. now rewrite E', Ei.
      * unfold desc_fits_line. rewrite E'. now apply Nat.ltb_lt.
      * apply task_line_text; auto using status_in_int.
      * apply task_line_nonempty.
      * right. now apply task_line_closed.
    + apply Hsame. unfold set_status, task_matches. now rewrite E, Ei.
  - apply Hsame. unfold set_status, task_matches. now rewrite E.
Qed.

Lemma well_chunked_set_status taskId c M :
  well_chunked M -> Forall line_ok M ->
  well_chunked (map (set_status taskId c) M).
Proof.
  induction 1 as [|b M Hb Hc _ IH]; intros HM; [constructor|].
  inversion HM as [|? ? [Ht Hf] HM']; subst. cbn [map].
  destruct (set_status_again taskId c b Ht Hf Hb)
    as (_ & _ & _ & _ & Hne & Hsame).
  constructor; [exact Hne| |now apply IH].
  destruct Hsame as [->|Hcl]; [|now left].
  destruct Hc as [Hc|[-> Hc]]; [now left|now right].
Qed.

Lemma set_status_map_again taskId c M :
  Forall line_ok M -> Forall (fun b => b <> []) M ->
  map (set_status taskId c) (map (set_status taskId c) M)
  = map (set_status taskId c) M /\
  existsb (task_matches taskId) (map (set_status taskId c) M)
  = existsb (task_matches taskId) M /\
  forallb desc_fits_line (map (set_status taskId c) M) = true /\
  text_file (concat (map (set_status taskId c) M)) = true.
Proof.
  induction 1 as [|b M [Ht Hf] _ IH]; intros Hne; [now repeat split|].
  inversion Hne as [|? ? Hb Hne']; subst.
  destruct (IH Hne') as (IH1 & IH2 & IH3 & IH4).
  destruct (set_status_again taskId c b Ht Hf Hb)
    as (H1 & H2 & H3 & H4 & _ & _).
  cbn [map existsb forallb concat].
  rewrite H1, H2, H3, IH1, IH2, IH3, text_file_app, H4, IH4.
  now repeat split.
Qed.

Lemma well_chunked_nonempty M :
  well_chunked M -> Forall (fun b => b <> []) M.
Proof. induction 1; constructor; auto. Qed.

Lemma file_bufs_line_ok f :
  text_file f = true -> desc_fits f = true -> Forall line_ok (file_bufs f).
Proof.
  intros Ht Hd. unfold desc_fits in Hd.
  rewrite file_lines_text in Hd by exact Ht.
  pose proof (text_file_bufs f Ht) as HT.
  rewrite forallb_forall in Hd. rewrite Forall_forall in *.
  intros b Hb. split; auto.
Qed.

(** C7, as the program has it: on a text file (no NUL byte) whose
    descriptions fit their buffer, SetStatus(id, c) goes through and,
    applied again to the file it wrote, writes the same file and
    prints the same message; so for [c] true and for [c] false. *)
Theorem modifyTaskStatus_idempotent
  (e : env) (f : list ascii) (id : Z) (c : bool) :
  text_file f = true -> desc_fits f = true ->
  exists st1 out,
    modifyTaskStatus e id c (Some f) = Done (st1, out) /\
    modifyTaskStatus e id c st1 = Done (st1, out).
Proof.
  intros Ht Hd.
  destruct (home_set e) eqn:Hh;
    [|exists (Some f), HomeNotSet; unfold modifyTaskStatus;
      rewrite Hh; now split].
  destruct (temp_ok e) eqn:Hte;
    [|exists (Some f), TempFileError; unfold modifyTaskStatus;
      rewrite Hh, Hte; now split].
  pose proof (file_bufs_line_ok f Ht Hd) as Hok.
  pose proof (file_bufs_well_chunked f) as Hwc.
  destruct (set_status_map_again id c (file_bufs f) Hok
              (well_chunked_nonempty _ Hwc)) as (H1 & H2 & H3 & H4).
  pose proof (file_bufs_concat _
                (well_chunked_set_status id c _ Hwc Hok)) as Hread.
  rewrite (modifyTaskStatus_lines e f id c Hh Hte Hd).
  change (fun l => if task_matches id l then rewrite_line c l else l)
    with (set_status id c).
  rewrite (file_lines_text f Ht).
  eexists _, _. split; [reflexivity|].
  rewrite modifyTaskStatus_lines; try assumption.
  - change (fun l => if task_matches id l then rewrite_line c l else l)
      with (set_status id c).
    rewrite (file_lines_text _ H4), Hread, H1, H2. reflexivity.
  - unfold desc_fits. rewrite (file_lines_text _ H4), Hread. exact H3.
Qed.

Lemma modifyTaskStatus_idempotent_witness :
  exists st1 out,
    modifyTaskStatus env_ok 2 true (Some (str "1,0,a
 garbage
  2,0,b
")) = Done (st1, out) /\
    modifyTaskStatus env_ok 2 true st1 = Done (st1, out).
Proof.
  exact (modifyTaskStatus_idempotent env_ok (str "1,0,a
 garbage
  2,0,b
") 2 true eq_refl eq_refl).
Defined.

(** ** A line within a file *)

Lemma line_start_tail b r :
  line_start (b ++ r) -> line_start r.
Proof.
  intros [H|(p & c & H & Hc)].
  - left. now destruct (app_eq_nil _ _ H).
  - destruct r as [|x r]; [now left|]. right.
    destruct (exists_last (l := x :: r)) as (r' & y & Hr); [discriminate|].
    rewrite Hr in *. rewrite app_assoc in H.
    apply app_inj_tail in H. destruct H as [_ ->]. now exists r', c.
Qed.

Lemma shape_closed_line n b :
  buf_shape n b [] -> (exists p c, b = p ++ [c] /\ is_nl c = true) ->
  closed n b.
Proof.
  intros [w c Hb Hc Hw Hl|Hb Hl|Hb Hl _] (p & d & Hp & Hd).
  - subst b. now apply closed_line.
  - now apply closed_full.
  - subst b. rewrite no_nl_app in Hb. simpl in Hb. rewrite Hd in Hb.
    rewrite andb_false_r in Hb. discriminate.
Qed.

Lemma file_bufs_app pre : forall s,
  line_start pre -> file_bufs (pre ++ s) = file_bufs pre ++ file_bufs s.
Proof.
  induction pre as [|pre b r Hne E IH] using file_read_ind; intros s Hst.
  - reflexivity.
  - pose proof (fgets_aux_shape _ _ _ _ E) as Hsh.
    pose proof (fgets_aux_app _ _ _ _ E) as Happ.
    assert (Hcl : closed (LINE_SIZE - 1) b).
    { destruct r as [|x r].
      - apply shape_closed_line; [exact Hsh|].
        rewrite app_nil_r in Happ. subst pre.
        destruct Hst as [H|H]; [congruence|exact H].
      - eapply shape_closed; [exact Hsh|discriminate]. }
    rewrite (file_bufs_cons _ _ _ Hne E). cbn [app].
    rewrite (file_bufs_cons (pre ++ s) b (r ++ s)).
    + f_equal. apply IH. rewrite Happ in Hst. eapply line_start_tail; eauto.
    + destruct pre; [congruence|discriminate].
    + rewrite Happ, <- app_assoc. apply Hcl.
Qed.

Lemma whole_line_start l : whole_line l -> line_start l.
Proof. intros (w & c & -> & Hc & _). right. now exists w, c. Qed.

Lemma file_bufs_whole_line l : whole_line l -> file_bufs l = [l].
Proof.
  intros (w & c & -> & Hc & Hw & Hl).
  rewrite (file_bufs_cons (w ++ [c]) (w ++ [c]) []).
  - reflexivity.
  - destruct w; discriminate.
  - pose proof (closed_line (LINE_SIZE - 1) w c Hc Hw Hl []) as H.
    now rewrite app_nil_r in H.
Qed.

Lemma file_lines_around pre l post :
  line_start pre -> whole_line l -> text_file l = true ->
  file_lines (pre ++ l ++ post) = file_lines pre ++ l :: file_lines post.
Proof.
  intros Hp Hl Ht. unfold file_lines.
  rewrite (file_bufs_app pre _ Hp).
  rewrite (file_bufs_app l post (whole_line_start l Hl)).
  rewrite (file_bufs_whole_line l Hl).
  rewrite !map_app. cbn [map app]. now rewrite c_str_text.
Qed.

Lemma file_lines_app pre post :
  line_start pre -> file_lines (pre ++ post) = file_lines pre ++ file_lines post.
Proof.
  intros Hp. unfold file_lines. rewrite file_bufs_app by exact Hp.
  apply map_app.
Qed.

Lemma foldM_app {A S} (body : S -> A -> outcome S) l1 l2 : forall s,
  foldM body (l1 ++ l2) s = (s' <- foldM body l1 s ;; foldM body l2 s').
Proof.
  induction l1 as [|a l1 IH]; intros s; [reflexivity|]. cbn [app foldM].
  destruct (body s a) as [s'|]; [apply IH|reflexivity].
Qed.

(** The loops only add to what they have written. *)
Lemma list_fold_shift lines : forall rows,
  foldM list_step lines rows
  = (r <- foldM list_step lines [] ;; Done (rows ++ r)).
Proof.
  induction lines as [|l lines IH]; intros rows.
  - simpl. now rewrite app_nil_r.
  - cbn [foldM]. unfold list_step at 1 3.
    destruct (scan_task l) as [[[i st] d]|].
    + destruct (length d <? MAX_DESCRIPTION_LEN)%nat; [|reflexivity].
      cbn [bind app]. rewrite IH. rewrite (IH [_]).
      destruct (foldM list_step lines []) as [r|]; [|reflexivity].
      cbn [bind]. now rewrite <- app_assoc.
    + cbn [bind]. apply IH.
Qed.

Lemma modify_fold_shift taskId c lines : forall temp found,
  foldM (modify_step taskId c) lines (temp, found)
  = (x <- foldM (modify_step taskId c) lines ([], false) ;;
     Done (temp ++ fst x, found || snd x)).
Proof.
  induction lines as [|l lines IH]; intros temp found.
  - simpl. now rewrite app_nil_r, orb_false_r.
  - cbn [foldM]. unfold modify_step at 1 3.
    destruct (scan_task l) as [[[i st] d]|].
    + destruct (length d <? MAX_DESCRIPTION_LEN)%nat; [|reflexivity].
      destruct (i =? taskId); cbn [bind app].
      * rewrite IH. rewrite (IH (task_line _ _ _) true).
        destruct (foldM (modify_step taskId c) lines ([], false)) as [x|];
          [|reflexivity].
        cbn [bind fst snd orb]. rewrite <- app_assoc.
        do 2 f_equal. now destruct found.
      * rewrite IH. rewrite (IH l false).
        destruct (foldM (modify_step taskId c) lines ([], false)) as [x|];
          [|reflexivity].
        cbn [bind fst snd orb]. now rewrite <- app_assoc.
    + cbn [bind app]. rewrite IH. rewrite (IH l false).
      destruct (foldM (modify_step taskId c) lines ([], false)) as [x|];
        [|reflexivity].
      cbn [bind fst snd orb]. now rewrite <- app_assoc.
Qed.

(** The loops on a file with a line [l] in it, from the loops on what
    precedes and what follows the line. *)
Lemma list_loop_around pre l post :
  line_start pre -> whole_line l -> text_file l = true ->
  list_loop (pre ++ l ++ post)
  = (a <- list_loop pre ;; x <- list_step [] l ;; b <- list_loop post ;;
     Done (a ++ x ++ b)).
Proof.
  intros Hp Hl Ht. unfold list_loop.
  rewrite file_lines_around by assumption.
  rewrite foldM_app. destruct (foldM list_step (file_lines pre) []) as [a|];
    [|reflexivity].
  cbn [bind]. rewrite (list_fold_shift (l :: file_lines post) a).
  cbn [foldM]. destruct (list_step [] l) as [x|]; [|reflexivity].
  cbn [bind]. rewrite (list_fold_shift (file_lines post) x).
  destruct (foldM list_step (file_lines post) []) as [b|]; reflexivity.
Qed.

Lemma modify_loop_around taskId c pre l post :
  line_start pre -> whole_line l -> text_file l = true ->
  modify_loop taskId c (pre ++ l ++ post)
  = (a <- modify_loop taskId c pre ;;
     x <- modify_step taskId c ([], false) l ;;
     b <- modify_loop taskId c post ;;
     Done (fst a ++ fst x ++ fst b, snd a || snd x || snd b)).
Proof.
  intros Hp Hl Ht. unfold modify_loop.
  rewrite file_lines_around by assumption.
  rewrite foldM_app.
  destruct (foldM (modify_step taskId c) (file_lines pre) ([], false))
    as [[ta fa]|]; [|reflexivity].
  cbn [bind]. rewrite (modify_fold_shift taskId c (l :: file_lines post) ta fa).
  cbn [foldM].
  destruct (modify_step taskId c ([], false) l) as [[tx fx]|]; [|reflexivity].
  cbn [bind]. rewrite (modify_fold_shift taskId c (file_lines post) tx fx).
  destruct (foldM (modify_step taskId c) (file_lines post) ([], false))
    as [[tb fb]|]; [|reflexivity].
  cbn [bind fst snd]. now rewrite orb_assoc.
Qed.

(** ** Record lines: the empty description, the status *)

Lemma task_line_whole i st d :
  in_int i -> in_int st -> no_nl d = true ->
  (length (task_line i st d) <= LINE_SIZE - 1)%nat ->
  whole_line (task_line i st d).
Proof.
  intros Hi Hst Hd Hl. unfold task_line in *.
  destruct (print_int_props i Hi) as (_ & Hni & _).
  destruct (print_int_props st Hst) as (_ & Hns & _).
  exists (print_int i ++ [COMMA] ++ print_int st ++ [COMMA] ++ d), NL.
  split; [now rewrite <- !app_assoc|]. split; [reflexivity|]. split.
  - now rewrite !no_nl_app, Hni, Hns, Hd.
  - rewrite !length_app in *. simpl length in *. lia.
Qed.

Lemma file_lines_whole_line l :
  whole_line l -> text_file l = true -> file_lines l = [l].
Proof.
  intros Hl Ht. unfold file_lines. rewrite file_bufs_whole_line by exact Hl.
  simpl. now rewrite c_str_text.
Qed.

Lemma scan_task_empty_description id status :
  in_int id -> in_int status -> scan_task (task_line id status []) = None.
Proof.
  intros Hi Hst. unfold task_line, scan_task.
  rewrite scan_int_print by (exact Hi || reflexivity).
  cbn [app]. change (code COMMA =? 44) with true. cbv iota.
  rewrite scan_int_print by (exact Hst || reflexivity).
  reflexivity.
Qed.

Lemma empty_description_fits id status :
  in_int id -> in_int status ->
  whole_line (task_line id status []) /\
  text_file (task_line id status []) = true.
Proof.
  intros Hi Hst. split.
  - apply task_line_whole; auto. unfold task_line.
    destruct (print_int_props id Hi) as (Hli & _).
    destruct (print_int_props status Hst) as (Hls & _).
    rewrite !length_app. unfold LINE_SIZE, MAX_DESCRIPTION_LEN.
    simpl length. lia.
  - now apply task_line_text.
Qed.

(** C9: a line "id,status," with nothing before its newline is not a
    record for the program.  List() yields what it yields without the
    line; the loop of SetStatus on the line's id copies the line as it
    is and finds the id only if another line has it; on the file made
    of that line alone SetStatus reports "not found" and leaves it. *)
Theorem empty_description_line_is_malformed
  (e : env) (pre post : list ascii) (id status : Z) (c : bool) :
  in_int id -> in_int status -> line_start pre ->
  scan_task (task_line id status []) = None /\
  listTasks (Some (pre ++ task_line id status [] ++ post))
  = listTasks (Some (pre ++ post)) /\
  modify_loop id c (pre ++ task_line id status [] ++ post)
  = (a <- modify_loop id c pre ;; b <- modify_loop id c post ;;
     Done (fst a ++ task_line id status [] ++ fst b, snd a || snd b)) /\
  (home_set e = true -> temp_ok e = true ->
   modifyTaskStatus e id c (Some (task_line id status []))
   = Done (Some (task_line id status []), NotFound id)).
Proof.
  intros Hi Hst Hp.
  pose proof (scan_task_empty_description id status Hi Hst) as Hscan.
  destruct (empty_description_fits id status Hi Hst) as [Hw Ht].
  assert (Hm : modify_step id c ([], false) (task_line id status [])
               = Done (task_line id status [], false)).
  { unfold modify_step. now rewrite Hscan. }
  split; [exact Hscan|]. split; [|split].
  - unfold listTasks. rewrite list_loop_around by assumption.
    unfold list_loop at 3. rewrite file_lines_app by exact Hp.
    rewrite foldM_app. unfold list_loop, list_step at 2. rewrite Hscan.
    destruct (foldM list_step (file_lines pre) []) as [a|]; [|reflexivity].
    cbn [bind app]. rewrite (list_fold_shift (file_lines post) a).
    reflexivity.
  - rewrite modify_loop_around by assumption. rewrite Hm.
    destruct (modify_loop id c pre) as [a|]; [|reflexivity]. cbn [bind].
    destruct (modify_loop id c post) as [b|]; [|reflexivity].
    cbn [bind fst snd]. now rewrite orb_false_r.
  - intros Hh Hte. unfold modifyTaskStatus, modify_loop.
    rewrite Hh, Hte. cbn [negb].
    rewrite file_lines_whole_line by assumption.
    cbn [foldM]. rewrite Hm. cbn [bind fst snd]. reflexivity.
Qed.

Lemma empty_description_line_is_malformed_witness :
  listTasks (Some (str "1,0,a
" ++ task_line 7 0 [] ++ str "2,1,b
"))
  = listTasks (Some (str "1,0,a
" ++ str "2,1,b
")).
Proof.
  refine (proj1 (proj2 (empty_description_line_is_malformed
                          env_ok (str "1,0,a
") (str "2,1,b
") 7 0 true _ _ _))).
  - unfold in_int, INT_MIN, INT_MAX; lia.
  - unfold in_int, INT_MIN, INT_MAX; lia.
  - right. exists (str "1,0,a"), NL. split; reflexivity.
Defined.

(** C10, as the program has it: a line "id,s,description" with [id]
    and [s] any two [int] values written in decimal, a description
    that is not empty, has neither newline nor NUL and is shorter than
    256 bytes, and a length that fits the read buffer, is a record for
    the program.  List() yields its row, shown as done exactly when
    [s] is 1 and as pending for every other value; SetStatus on its id
    finds it and rewrites it. *)
Theorem any_status_is_well_formed
  (e : env) (pre post : list ascii) (id s : Z) (d : cstring) (c : bool) :
  in_int id -> in_int s ->
  d <> [] -> no_nl d = true -> text_file d = true ->
  (length d < MAX_DESCRIPTION_LEN)%nat ->
  (length (task_line id s d) <= LINE_SIZE - 1)%nat ->
  line_start pre ->
  scan_task (task_line id s d) = Some (id, s, d) /\
  list_loop (pre ++ task_line id s d ++ post)
  = (a <- list_loop pre ;; b <- list_loop post ;;
     Done (a ++ Build_row id (status_display s) d :: b)) /\
  (status_display s = DONE <-> s = 1) /\
  (status_display s = PENDING <-> s <> 1) /\
  listTasks (Some (task_line id s d))
  = Done (Listing [Build_row id (status_display s) d]) /\
  modify_loop id c (pre ++ task_line id s d ++ post)
  = (a <- modify_loop id c pre ;; b <- modify_loop id c post ;;
     Done (fst a ++ task_line id (if c then 1 else 0) d ++ fst b, true)) /\
  (home_set e = true -> temp_ok e = true ->
   modifyTaskStatus e id c (Some (task_line id s d))
   = Done (Some (task_line id (if c then 1 else 0) d), Marked id c)).
Proof.
  intros Hi Hs Hne Hnl Htd Hlen Hline Hp.
  pose proof (scan_task_line id s d Hi Hs Hnl Hne) as Hscan.
  pose proof (task_line_whole id s d Hi Hs Hnl Hline) as Hw.
  pose proof (task_line_text id s d Hi Hs Htd) as Ht.
  apply Nat.ltb_lt in Hlen.
  assert (Hl : list_step [] (task_line id s d)
               = Done [Build_row id (status_display s) d]).
  { unfold list_step. now rewrite Hscan, Hlen. }
  assert (Hm : modify_step id c ([], false) (task_line id s d)
               = Done (task_line id (if c then 1 else 0) d, true)).
  { unfold modify_step. now rewrite Hscan, Hlen, Z.eqb_refl. }
  split; [exact Hscan|]. split; [|split; [|split; [|split; [|split]]]].
  - rewrite list_loop_around by assumption. rewrite Hl.
    destruct (list_loop pre) as [a|]; [|reflexivity]. cbn [bind].
    destruct (list_loop post) as [b|]; reflexivity.
  - unfold status_display. destruct (s =? 1) eqn:E.
    + apply Z.eqb_eq in E. tauto.
    + apply Z.eqb_neq in E. split; [discriminate|tauto].
  - unfold status_display. destruct (s =? 1) eqn:E.
    + apply Z.eqb_eq in E. split; [discriminate|tauto].
    + apply Z.eqb_neq in E. tauto.
  - unfold listTasks, list_loop.
    rewrite file_lines_whole_line by assumption.
    cbn [foldM]. rewrite Hl. reflexivity.
  - rewrite modify_loop_around by assumption. rewrite Hm.
    destruct (modify_loop id c pre) as [a|]; [|reflexivity]. cbn [bind].
    destruct (modify_loop id c post) as [b|]; [|reflexivity].
    cbn [bind fst snd]. now rewrite orb_true_r.
  - intros Hh Hte. unfold modifyTaskStatus, modify_loop.
    rewrite Hh, Hte. cbn [negb].
    rewrite file_lines_whole_line by assumption.
    cbn [foldM]. rewrite Hm. reflexivity.
Qed.

Lemma any_status_is_well_formed_witness :
  listTasks (Some (task_line 4 (-7) (str "call, then write")))
  = Done (Listing [Build_row 4 PENDING (str "call, then write")]).
Proof.
  refine (proj1 (proj2 (proj2 (proj2 (proj2
    (any_status_is_well_formed env_ok [] [] 4 (-7) (str "call, then write")
       true _ _ _ _ _ _ _ _)))))).
  - unfold in_int, INT_MIN, INT_MAX; lia.
  - unfold in_int, INT_MIN, INT_MAX; lia.
  - discriminate.
  - reflexivity.
  - reflexivity.
  - vm_compute. lia.
  - vm_compute. lia.
  - left. reflexivity.
Defined.

(** * Further properties of the program *)

(** ** What the read loop sees *)

Lemma no_nl_removelast b : no_nl b = true -> no_nl (removelast b) = true.
Proof.
  induction b as [|a b IH]; [reflexivity|]. intros Hb.
  simpl in Hb. apply andb_true_iff in Hb. destruct Hb as [Ha Hb].
  destruct b; [reflexivity|]. cbn [removelast no_nl forallb].
  rewrite Ha. now apply IH.
Qed.

Lemma shape_piece n b r :
  buf_shape n b r -> (length b <= n)%nat /\ no_nl (removelast b) = true.
Proof.
  intros [w c Hb Hc Hw Hl|Hb Hl|Hb Hl _].
  - subst b. rewrite removelast_last, length_app. simpl. split; [lia|exact Hw].
  - split; [lia|now apply no_nl_removelast].
  - split; [lia|now apply no_nl_removelast].
Qed.

(** X1: whatever the file, the buffers that the successive [fgets]
    calls return are its content cut in pieces, in order: none is
    empty, none is longer than 275 bytes, and a newline is the last
    byte of its piece. *)
Theorem fgets_pieces_partition_file (f : list ascii) :
  concat (file_bufs f) = f /\
  Forall (fun b => b <> [] /\ (length b <= LINE_SIZE - 1)%nat /\
                   no_nl (removelast b) = true) (file_bufs f).
Proof.
  split; [apply concat_file_bufs|].
  induction f as [|s b r Hs E IH] using file_read_ind; [constructor|].
  rewrite (file_bufs_cons _ _ _ Hs E). constructor; [|exact IH].
  pose proof (shape_piece _ _ _ (fgets_aux_shape _ _ _ _ E)) as [Hl Hn].
  split; [|split; assumption].
  change (LINE_SIZE - 1)%nat with (S 274) in E.
  eapply fgets_aux_nonempty; eauto.
Qed.

(** ** The lines of the store after an operation *)

Lemma c_str_is_text b : text_file (c_str b) = true.
Proof.
  induction b as [|c b IH]; [reflexivity|]. simpl.
  destruct (is_nul c) eqn:E; [reflexivity|]. simpl. now rewrite E.
Qed.

Lemma text_file_concat M :
  Forall (fun b => text_file b = true) M -> text_file (concat M) = true.
Proof.
  induction 1 as [|b M Hb _ IH]; [reflexivity|].
  simpl. now rewrite text_file_app, Hb, IH.
Qed.

Lemma Forall_filter {A} (P : A -> Prop) (q : A -> bool) l :
  Forall P l -> Forall P (filter q l).
Proof.
  induction 1 as [|a l Ha _ IH]; simpl; [constructor|].
  destruct (q a); [constructor|]; assumption.
Qed.

(** After [deleteTask] on a text file, the program reads the lines it
    read before, without those that start with the id. *)
Lemma delete_lines e f t :
  home_set e = true -> temp_ok e = true -> text_file f = true ->
  exists f',
    deleteTask e t (Some f)
    = (Some f', if existsb (id_matches t) (file_lines f)
                then Deleted t else NotFound t) /\
    f' = concat (filter (fun l => negb (id_matches t l)) (file_lines f)) /\
    text_file f' = true /\
    file_lines f' = filter (fun l => negb (id_matches t l)) (file_lines f).
Proof.
  intros Hh Ht Hf. eexists. split; [|split; [reflexivity|]].
  - unfold deleteTask. rewrite Hh, Ht. cbn [negb]. rewrite delete_fold.
    reflexivity.
  - cbn [fst app]. rewrite (file_lines_text f Hf).
    assert (Htx : text_file
              (concat (filter (fun l => negb (id_matches t l)) (file_bufs f)))
            = true)
      by (apply text_file_concat, Forall_filter, text_file_bufs, Hf).
    split; [exact Htx|].
    rewrite (file_lines_text _ Htx).
    apply file_bufs_concat, well_chunked_filter, file_bufs_well_chunked.
Qed.

(** After [modifyTaskStatus] on a text file whose descriptions fit,
    the program reads the lines it wrote, one for each line read
    before. *)
Lemma set_status_lines e f t c :
  home_set e = true -> temp_ok e = true ->
  text_file f = true -> desc_fits f = true ->
  exists f',
    modifyTaskStatus e t c (Some f)
    = Done (Some f', if existsb (task_matches t) (file_lines f)
                     then Marked t c else NotFound t) /\
    f' = concat (map (set_status t c) (file_lines f)) /\
    text_file f' = true /\ desc_fits f' = true /\
    file_lines f' = map (set_status t c) (file_lines f).
Proof.
  intros Hh Hte Ht Hd.
  pose proof (file_bufs_line_ok f Ht Hd) as Hok.
  pose proof (file_bufs_well_chunked f) as Hwc.
  destruct (set_status_map_again t c (file_bufs f) Hok
              (well_chunked_nonempty _ Hwc)) as (_ & _ & H3 & H4).
  pose proof (file_bufs_concat _
                (well_chunked_set_status t c _ Hwc Hok)) as Hread.
  eexists. split; [|split; [reflexivity|split; [|split]]].
  - rewrite (modifyTaskStatus_lines e f t c Hh Hte Hd).
    change (fun l => if task_matches t l then rewrite_line c l else l)
      with (set_status t c). reflexivity.
  - rewrite (file_lines_text f Ht). exact H4.
  - unfold desc_fits. rewrite (file_lines_text f Ht).
    rewrite (file_lines_text _ H4), Hread. exact H3.
  - rewrite (file_lines_text f Ht). rewrite (file_lines_text _ H4).
    exact Hread.
Qed.

(** [listTasks] goes through exactly when every description fits, and
    then shows the rows of the well-formed lines. *)
Lemma list_fold_done lines : forall rows0 rows,
  foldM list_step lines rows0 = Done rows ->
  forallb desc_fits_line lines = true.
Proof.
  induction lines as [|l lines IH]; intros rows0 rows H; [reflexivity|].
  cbn [foldM forallb] in *. unfold list_step in H at 1.
  unfold desc_fits_line at 1.
  destruct (scan_task l) as [[[i st] d]|].
  - destruct (length d <? MAX_DESCRIPTION_LEN)%nat; [|discriminate].
    cbn [bind] in H. simpl. eapply IH; eauto.
  - cbn [bind] in H. simpl. eapply IH; eauto.
Qed.

Lemma listTasks_done f rows :
  listTasks (Some f) = Done (Listing rows) ->
  desc_fits f = true /\ rows = filter_map row_of_line (file_lines f).
Proof.
  intros H. unfold listTasks, list_loop in H.
  destruct (foldM list_step (file_lines f) []) as [r|] eqn:E; [|discriminate].
  cbn [bind] in H. injection H as <-.
  pose proof (list_fold_done _ _ _ E) as Hd. split; [exact Hd|].
  rewrite list_fold in E by exact Hd. rewrite filter_map_well_formed in E.
  now injection E as <-.
Qed.

Lemma listTasks_rows f :
  desc_fits f = true ->
  listTasks (Some f) = Done (Listing (filter_map row_of_line (file_lines f))).
Proof.
  intros Hd. rewrite listTasks_lines by exact Hd.
  now rewrite filter_map_well_formed.
Qed.

(** ** Lines, rows and ids *)

Lemma scan_task_scan_id l i st d :
  scan_task l = Some (i, st, d) -> scan_id l = Some i.
Proof.
  unfold scan_task, scan_id.
  destruct (scan_int l) as [[i0 [|c1 r1]]|]; try discriminate.
  destruct (code c1 =? 44); [|discriminate].
  destruct (scan_int r1) as [[st0 [|c2 r2]]|]; try discriminate.
  destruct (code c2 =? 44); [|discriminate].
  destruct (scan_not_nl r2); [discriminate|].
  intros H. now injection H as <- _ _.
Qed.

(** The record that [sscanf] reads from the line written for a line. *)
Lemma scan_task_set_status t c l :
  scan_task (set_status t c l)
  = match scan_task l with
    | Some (i, st, d) =>
        Some (i, if i =? t then (if c then 1 else 0) else st, d)
    | None => None
    end.
Proof.
  unfold set_status, task_matches, rewrite_line.
  destruct (scan_task l) as [[[i st] d]|] eqn:E; [|exact E].
  destruct (i =? t); [|exact E].
  destruct (scan_task_fields _ _ _ _ E) as (Hi & _ & Hn & Hd & _).
  apply scan_task_line; auto using status_in_int.
Qed.

Lemma row_of_line_set_status t c l :
  row_of_line (set_status t c l)
  = option_map (set_row_status t c) (row_of_line l).
Proof.
  unfold row_of_line. rewrite scan_task_set_status.
  destruct (scan_task l) as [[[i st] d]|]; [|reflexivity].
  cbn [option_map]. unfold set_row_status. cbn [row_id row_description].
  destruct (i =? t); [|reflexivity]. now destruct c.
Qed.

Lemma scan_id_set_status t c l : scan_id (set_status t c l) = scan_id l.
Proof.
  pose proof (scan_task_set_status t c l) as H.
  destruct (scan_task l) as [[[i st] d]|] eqn:E.
  - rewrite (scan_task_scan_id _ _ _ _ H).
    now rewrite (scan_task_scan_id _ _ _ _ E).
  - unfold set_status, task_matches. now rewrite E.
Qed.

Lemma task_matches_set_status t u c l :
  task_matches u (set_status t c l) = task_matches u l.
Proof.
  unfold task_matches at 1. rewrite scan_task_set_status.
  unfold task_matches. now destruct (scan_task l) as [[[i st] d]|].
Qed.

Lemma set_status_record t c l i st d :
  scan_task l = Some (i, st, d) ->
  set_status t c l
  = if i =? t then task_line i (if c then 1 else 0) d else l.
Proof.
  intros E. unfold set_status, task_matches, rewrite_line. now rewrite E.
Qed.

Lemma set_status_malformed t c l :
  scan_task l = None -> set_status t c l = l.
Proof.
  intros E. unfold set_status, task_matches. now rewrite E.
Qed.

Lemma set_status_last_line t c1 c2 l :
  set_status t c2 (set_status t c1 l) = set_status t c2 l.
Proof.
  pose proof (scan_task_set_status t c1 l) as H.
  destruct (scan_task l) as [[[i st] d]|] eqn:E.
  - rewrite (set_status_record t c2 _ _ _ _ H).
    rewrite (set_status_record t c2 _ _ _ _ E).
    destruct (i =? t) eqn:Ei; [reflexivity|].
    rewrite (set_status_record t c1 _ _ _ _ E). now rewrite Ei.
  - now rewrite (set_status_malformed t c1 l E).
Qed.

Lemma row_id_matches t l r :
  row_of_line l = Some r -> id_matches t l = (row_id r =? t).
Proof.
  unfold row_of_line, id_matches.
  destruct (scan_task l) as [[[i st] d]|] eqn:E; [|discriminate].
  intros H. injection H as <-. now rewrite (scan_task_scan_id _ _ _ _ E).
Qed.

Lemma rows_without_id t L :
  filter_map row_of_line (filter (fun l => negb (id_matches t l)) L)
  = filter (fun r => negb (row_id r =? t)) (filter_map row_of_line L).
Proof.
  induction L as [|l L IH]; [reflexivity|]. cbn [filter filter_map].
  destruct (row_of_line l) as [r|] eqn:E.
  - rewrite (row_id_matches t l r E). cbn [filter].
    destruct (row_id r =? t); cbn [negb filter_map]; [exact IH|].
    now rewrite E, IH.
  - destruct (negb (id_matches t l)); [cbn [filter_map]; rewrite E|]; exact IH.
Qed.

Lemma rows_set_status t c L :
  filter_map row_of_line (map (set_status t c) L)
  = map (set_row_status t c) (filter_map row_of_line L).
Proof.
  induction L as [|l L IH]; [reflexivity|]. cbn [map filter_map].
  rewrite row_of_line_set_status.
  destruct (row_of_line l); cbn [option_map map]; now rewrite IH.
Qed.

Lemma ids_set_status t c L :
  filter_map scan_id (map (set_status t c) L) = filter_map scan_id L.
Proof.
  induction L as [|l L IH]; [reflexivity|]. cbn [map filter_map].
  now rewrite scan_id_set_status, IH.
Qed.

Lemma ids_without_id t L :
  filter_map scan_id (filter (fun l => negb (id_matches t l)) L)
  = filter (fun i => negb (i =? t)) (filter_map scan_id L).
Proof.
  induction L as [|l L IH]; [reflexivity|]. cbn [filter filter_map].
  unfold id_matches at 1. destruct (scan_id l) as [i|] eqn:E.
  - cbn [filter]. destruct (i =? t); cbn [negb filter_map]; [exact IH|].
    now rewrite E, IH.
  - cbn [negb filter_map]. now rewrite E.
Qed.

Lemma id_on_disk t L :
  existsb (id_matches t) L = true <-> In t (filter_map scan_id L).
Proof.
  induction L as [|l L IH]; [simpl; split; [discriminate|tauto]|].
  cbn [existsb filter_map]. unfold id_matches at 1.
  destruct (scan_id l) as [i|].
  - rewrite orb_true_iff, IH. simpl. rewrite Z.eqb_eq. tauto.
  - simpl. exact IH.
Qed.

Lemma id_listed t L :
  existsb (task_matches t) L = true
  <-> exists r, In r (filter_map row_of_line L) /\ row_id r = t.
Proof.
  induction L as [|l L IH].
  - simpl. split; [discriminate|]. now intros (r & [] & _).
  - cbn [existsb filter_map]. unfold task_matches at 1, row_of_line at 1.
    destruct (scan_task l) as [[[i st] d]|].
    + rewrite orb_true_iff, IH, Z.eqb_eq. split.
      * intros [<-|(r & Hr & <-)].
        -- eexists. split; [left; reflexivity|reflexivity].
        -- exists r. split; [now right|reflexivity].
      * intros (r & [<-|Hr] & <-); [now left|].
        right. now exists r.
    + simpl. exact IH.
Qed.

Lemma desc_fits_filter q L :
  forallb desc_fits_line L = true ->
  forallb desc_fits_line (filter q L) = true.
Proof.
  induction L as [|l L IH]; [reflexivity|]. cbn [forallb filter].
  intros H. apply andb_true_iff in H. destruct H as [Hl HL].
  destruct (q l); [cbn [forallb]; rewrite Hl|]; now apply IH.
Qed.

(** ** Deleting, then listing *)

(** X2: on a text file that List() can show, List() after Delete(t)
    shows the rows it showed before without those with id [t], in the
    same order. *)
Theorem delete_then_list (e : env) (f : list ascii) (t : Z) (rows : list row) :
  home_set e = true -> temp_ok e = true -> text_file f = true ->
  listTasks (Some f) = Done (Listing rows) ->
  listTasks (fst (deleteTask e t (Some f)))
  = Done (Listing (filter (fun r => negb (row_id r =? t)) rows)).
Proof.
  intros Hh Ht Hf Hl. apply listTasks_done in Hl. destruct Hl as [Hd ->].
  destruct (delete_lines e f t Hh Ht Hf) as (f' & -> & _ & _ & Hlines).
  cbn [fst]. rewrite listTasks_rows.
  - now rewrite Hlines, rows_without_id.
  - unfold desc_fits. rewrite Hlines. now apply desc_fits_filter.
Qed.

Lemma delete_then_list_witness :
  listTasks (fst (deleteTask env_ok 2 (Some (str "1,0,a
2,1,b
3,0,c
"))))
  = Done (Listing [Build_row 1 PENDING (str "a");
                   Build_row 3 PENDING (str "c")]).
Proof.
  exact (delete_then_list env_ok (str "1,0,a
2,1,b
3,0,c
") 2 _ eq_refl eq_refl eq_refl eq_refl).
Defined.

(** ** Changing a status, then listing *)

(** X3: on a text file that List() can show, SetStatus(t, c) goes
    through and List() then shows the same rows in the same order, the
    rows with id [t] with the new status, ids and descriptions as they
    were. *)
Theorem set_status_then_list
  (e : env) (f : list ascii) (t : Z) (c : bool) (rows : list row) :
  home_set e = true -> temp_ok e = true -> text_file f = true ->
  listTasks (Some f) = Done (Listing rows) ->
  exists st' out,
    modifyTaskStatus e t c (Some f) = Done (st', out) /\
    listTasks st' = Done (Listing (map (set_row_status t c) rows)).
Proof.
  intros Hh Ht Hf Hl. apply listTasks_done in Hl. destruct Hl as [Hd ->].
  destruct (set_status_lines e f t c Hh Ht Hf Hd)
    as (f' & -> & _ & _ & Hd' & Hlines).
  eexists _, _. split; [reflexivity|].
  rewrite listTasks_rows by exact Hd'. now rewrite Hlines, rows_set_status.
Qed.

Lemma set_status_then_list_witness :
  exists st' out,
    modifyTaskStatus env_ok 2 true (Some (str "1,0,a
2,0,b
")) = Done (st', out) /\
    listTasks st' = Done (Listing [Build_row 1 PENDING (str "a");
                                   Build_row 2 DONE (str "b")]).
Proof.
  exact (set_status_then_list env_ok (str "1,0,a
2,0,b
") 2 true _ eq_refl eq_refl eq_refl eq_refl).
Defined.

(** X4: the last status set wins.  On a text file whose descriptions
    fit, SetStatus(t, c2) after SetStatus(t, c1) leaves the file and
    prints the message that SetStatus(t, c2) alone does. *)
Theorem set_status_last_wins
  (e : env) (f : list ascii) (t : Z) (c1 c2 : bool) :
  home_set e = true -> temp_ok e = true ->
  text_file f = true -> desc_fits f = true ->
  exists st1 out1 st2 out2,
    modifyTaskStatus e t c1 (Some f) = Done (st1, out1) /\
    modifyTaskStatus e t c2 st1 = Done (st2, out2) /\
    modifyTaskStatus e t c2 (Some f) = Done (st2, out2).
Proof.
  intros Hh Ht Hf Hd.
  destruct (set_status_lines e f t c1 Hh Ht Hf Hd)
    as (f1 & H1 & _ & Hf1 & Hd1 & Hl1).
  destruct (set_status_lines e f1 t c2 Hh Ht Hf1 Hd1)
    as (f2 & H2 & E2 & _ & _ & _).
  destruct (set_status_lines e f t c2 Hh Ht Hf Hd)
    as (f2' & H3 & E3 & _ & _ & _).
  eexists _, _, _, _. split; [exact H1|]. split; [exact H2|].
  rewrite H3. rewrite E2, E3, Hl1, map_map.
  rewrite (map_ext _ _ (set_status_last_line t c1 c2)).
  do 2 f_equal.
  assert (E : existsb (task_matches t) (map (set_status t c1) (file_lines f))
              = existsb (task_matches t) (file_lines f)).
  { clear. induction (file_lines f) as [|l L IH]; [reflexivity|].
    cbn [map existsb]. now rewrite task_matches_set_status, IH. }
  now rewrite E.
Qed.

Lemma set_status_last_wins_witness :
  exists st1 out1 st2 out2,
    modifyTaskStatus env_ok 1 true (Some (str " 01,0,a
x
")) = Done (st1, out1) /\
    modifyTaskStatus env_ok 1 false st1 = Done (st2, out2) /\
    modifyTaskStatus env_ok 1 false (Some (str " 01,0,a
x
")) = Done (st2, out2).
Proof.
  exact (set_status_last_wins env_ok (str " 01,0,a
x
") 1 true false eq_refl eq_refl eq_refl eq_refl).
Defined.

(** X5: SetStatus(t, c) reports the task as marked exactly when List()
    shows a row with id [t], and as not found exactly when it shows
    none. *)
Theorem set_status_found_iff_listed
  (e : env) (f : list ascii) (t : Z) (c : bool) (rows : list row)
  (st' : store) (out : output) :
  home_set e = true -> temp_ok e = true ->
  listTasks (Some f) = Done (Listing rows) ->
  modifyTaskStatus e t c (Some f) = Done (st', out) ->
  (out = Marked t c <-> exists r, In r rows /\ row_id r = t) /\
  (out = NotFound t <-> ~ exists r, In r rows /\ row_id r = t).
Proof.
  intros Hh Ht Hl Hm. apply listTasks_done in Hl. destruct Hl as [Hd ->].
  rewrite (modifyTaskStatus_lines e f t c Hh Ht Hd) in Hm.
  injection Hm as _ <-. rewrite <- id_listed.
  destruct (existsb (task_matches t) (file_lines f)); split; split;
    intros H; try reflexivity; try discriminate; try congruence.
Qed.

Lemma set_status_found_iff_listed_witness :
  NotFound 7 = NotFound 7 <->
  ~ exists r, In r [Build_row 1 PENDING (str "a")] /\ row_id r = 7.
Proof.
  exact (proj2 (set_status_found_iff_listed env_ok (str "1,0,a
7,x
") 7 true _ _ _ eq_refl eq_refl eq_refl eq_refl)).
Defined.

(** X6: SetStatus changes no id.  On a text file whose descriptions
    fit, the leading integers of the lines are the same after
    SetStatus(t, c), in the same order, and so is the next id. *)
Theorem set_status_keeps_ids (e : env) (f : list ascii) (t : Z) (c : bool) :
  home_set e = true -> temp_ok e = true ->
  text_file f = true -> desc_fits f = true ->
  exists st' out,
    modifyTaskStatus e t c (Some f) = Done (st', out) /\
    disk_ids st' = disk_ids (Some f) /\
    getNextTaskId st' = getNextTaskId (Some f).
Proof.
  intros Hh Ht Hf Hd.
  destruct (set_status_lines e f t c Hh Ht Hf Hd)
    as (f' & -> & _ & _ & _ & Hlines).
  eexists _, _. split; [reflexivity|].
  assert (E : disk_ids (Some f') = disk_ids (Some f))
    by (unfold disk_ids; now rewrite Hlines, ids_set_status).
  split; [exact E|]. now rewrite !getNextTaskId_eq, E.
Qed.

Lemma set_status_keeps_ids_witness :
  exists st' out,
    modifyTaskStatus env_ok 3 true (Some (str "3,0,a
9
")) = Done (st', out) /\
    disk_ids st' = disk_ids (Some (str "3,0,a
9
")) /\
    getNextTaskId st' = getNextTaskId (Some (str "3,0,a
9
")).
Proof.
  exact (set_status_keeps_ids env_ok (str "3,0,a
9
") 3 true eq_refl eq_refl eq_refl eq_refl).
Defined.

(** ** Deleting *)

Lemma filter_filter_same {A} (q : A -> bool) l :
  filter q (filter q l) = filter q l.
Proof.
  induction l as [|a l IH]; [reflexivity|]. simpl.
  destruct (q a) eqn:E; [simpl; rewrite E|]; now rewrite IH.
Qed.

Lemma filter_comm {A} (p q : A -> bool) l :
  filter p (filter q l) = filter q (filter p l).
Proof.
  induction l as [|a l IH]; [reflexivity|]. simpl.
  destruct (q a) eqn:Eq; destruct (p a) eqn:Ep; simpl;
    rewrite ?Eq, ?Ep, IH; reflexivity.
Qed.

Lemma existsb_filter_out {A} (q : A -> bool) l :
  existsb q (filter (fun a => negb (q a)) l) = false.
Proof.
  induction l as [|a l IH]; [reflexivity|]. simpl.
  destruct (q a) eqn:E; simpl; [|rewrite E]; exact IH.
Qed.

(** X7: on a text file, a second Delete(t) finds nothing: it reports
    "not found" and leaves the file as the first Delete(t) left it. *)
Theorem delete_twice (e : env) (f : list ascii) (t : Z) :
  home_set e = true -> temp_ok e = true -> text_file f = true ->
  deleteTask e t (fst (deleteTask e t (Some f)))
  = (fst (deleteTask e t (Some f)), NotFound t).
Proof.
  intros Hh Ht Hf.
  destruct (delete_lines e f t Hh Ht Hf) as (f1 & -> & E1 & Hf1 & Hl1).
  cbn [fst].
  destruct (delete_lines e f1 t Hh Ht Hf1) as (f2 & -> & E2 & _ & _).
  rewrite Hl1 in E2. rewrite filter_filter_same in E2.
  rewrite Hl1, existsb_filter_out. cbv iota. rewrite E1, E2. reflexivity.
Qed.

Lemma delete_twice_witness :
  deleteTask env_ok 2 (fst (deleteTask env_ok 2 (Some (str "2,0,a
1,0,b
2
"))))
  = (Some (str "1,0,b
"), NotFound 2).
Proof.
  exact (delete_twice env_ok (str "2,0,a
1,0,b
2
") 2 eq_refl eq_refl eq_refl).
Defined.

(** X8: on a text file, two deletions leave the same file in either
    order. *)
Theorem delete_commutes (e : env) (f : list ascii) (t u : Z) :
  home_set e = true -> temp_ok e = true -> text_file f = true ->
  fst (deleteTask e t (fst (deleteTask e u (Some f))))
  = fst (deleteTask e u (fst (deleteTask e t (Some f)))).
Proof.
  intros Hh Ht Hf.
  destruct (delete_lines e f u Hh Ht Hf) as (fu & -> & Eu & Hfu & Hlu).
  destruct (delete_lines e f t Hh Ht Hf) as (ft & -> & Et & Hft & Hlt).
  cbn [fst].
  destruct (delete_lines e fu t Hh Ht Hfu) as (f1 & -> & E1 & _ & _).
  destruct (delete_lines e ft u Hh Ht Hft) as (f2 & -> & E2 & _ & _).
  cbn [fst]. rewrite E1, E2, Hlu, Hlt. now rewrite filter_comm.
Qed.

Lemma delete_commutes_witness :
  fst (deleteTask env_ok 1 (fst (deleteTask env_ok 3 (Some (str "1,0,a
2,0,b
3,0,c
")))))
  = fst (deleteTask env_ok 3 (fst (deleteTask env_ok 1 (Some (str "1,0,a
2,0,b
3,0,c
"))))).
Proof.
  exact (delete_commutes env_ok (str "1,0,a
2,0,b
3,0,c
") 1 3 eq_refl eq_refl eq_refl).
Defined.

(** X9: whatever the file, Delete(t) reports a deletion exactly when
    [t] is the leading integer of a line read, and "not found"
    otherwise. *)
Theorem delete_found_iff_on_disk (e : env) (f : list ascii) (t : Z) :
  home_set e = true -> temp_ok e = true ->
  (snd (deleteTask e t (Some f)) = Deleted t <-> In t (disk_ids (Some f))) /\
  (snd (deleteTask e t (Some f)) = NotFound t
   <-> ~ In t (disk_ids (Some f))).
Proof.
  intros Hh Ht. unfold deleteTask. rewrite Hh, Ht. cbn [negb snd].
  rewrite delete_fold. cbn [snd orb]. unfold disk_ids.
  rewrite <- id_on_disk.
  destruct (existsb (id_matches t) (file_lines f)); split; split;
    intros H; try reflexivity; try discriminate; try congruence.
Qed.

Lemma delete_found_iff_on_disk_witness :
  snd (deleteTask env_ok 5 (Some (str "5,abc
"))) = Deleted 5 <-> In 5 (disk_ids (Some (str "5,abc
"))).
Proof.
  exact (proj1 (delete_found_iff_on_disk env_ok (str "5,abc
") 5 eq_refl eq_refl)).
Defined.

(** X10: on a text file, the leading integers of the lines after
    Delete(t) are those of before without [t], in the same order; so
    [t] is on disk no more. *)
Theorem delete_disk_ids (e : env) (f : list ascii) (t : Z) :
  home_set e = true -> temp_ok e = true -> text_file f = true ->
  disk_ids (fst (deleteTask e t (Some f)))
  = filter (fun i => negb (i =? t)) (disk_ids (Some f)) /\
  ~ In t (disk_ids (fst (deleteTask e t (Some f)))).
Proof.
  intros Hh Ht Hf.
  destruct (delete_lines e f t Hh Ht Hf) as (f' & -> & _ & _ & Hlines).
  cbn [fst].
  assert (E : disk_ids (Some f')
              = filter (fun i => negb (i =? t)) (disk_ids (Some f)))
    by (unfold disk_ids; now rewrite Hlines, ids_without_id).
  split; [exact E|]. rewrite E. intros H. apply filter_In in H.
  destruct H as [_ H]. now rewrite Z.eqb_refl in H.
Qed.

Lemma delete_disk_ids_witness :
  disk_ids (fst (deleteTask env_ok 2 (Some (str "1,0,a
2,0,b
2
3,0,c
")))) = [1; 3].
Proof.
  exact (proj1 (delete_disk_ids env_ok (str "1,0,a
2,0,b
2
3,0,c
") 2 eq_refl eq_refl eq_refl)).
Defined.

(** ** What List() shows *)

Lemma filter_map_Forall_from {A B} (f : A -> option B)
  (Q : A -> Prop) (P : B -> Prop) l :
  Forall Q l -> (forall a b, Q a -> f a = Some b -> P b) ->
  Forall P (filter_map f l).
Proof.
  intros HQ H. induction HQ as [|a l Ha _ IH]; simpl; [constructor|].
  destruct (f a) eqn:E; [constructor; eauto|exact IH].
Qed.

Lemma file_lines_are_text f :
  Forall (fun l => text_file l = true) (file_lines f).
Proof.
  unfold file_lines. induction (file_bufs f) as [|b M IH]; constructor.
  - apply c_str_is_text.
  - exact IH.
Qed.

(** X11: every row that List() shows has an id in the range of [int]
    and a description that is not empty and has neither newline nor
    NUL. *)
Theorem listed_rows_are_records (f : list ascii) (rows : list row) :
  listTasks (Some f) = Done (Listing rows) ->
  Forall (fun r =>
            in_int (row_id r) /\ row_description r <> [] /\
            no_nl (row_description r) = true /\
            text_file (row_description r) = true) rows.
Proof.
  intros H. apply listTasks_done in H. destruct H as [_ ->].
  apply (filter_map_Forall_from _ (fun l => text_file l = true)).
  - apply file_lines_are_text.
  - intros l r Htl Hr. unfold row_of_line in Hr.
    destruct (scan_task l) as [[[i st] d]|] eqn:E; [|discriminate].
    injection Hr as <-. cbn [row_id row_description].
    destruct (scan_task_fields _ _ _ _ E) as (Hi & _ & Hn & Hne & Htd).
    split; [exact Hi|]. repeat split; auto.
Qed.

Lemma listed_rows_are_records_witness :
  Forall (fun r =>
            in_int (row_id r) /\ row_description r <> [] /\
            no_nl (row_description r) = true /\
            text_file (row_description r) = true)
    [Build_row 1 PENDING (str "a"); Build_row 4 DONE (str "b,c")].
Proof.
  exact (listed_rows_are_records (str "1,0,a
2,1,
 4,1,b,c
") _ eq_refl).
Defined.

(** ** Adding *)

Lemma ends_nl_line_start f : ends_nl f = true -> line_start f.
Proof.
  unfold ends_nl. intros H. rewrite <- (rev_involutive f).
  destruct (rev f) as [|c l]; [now left|].
  right. exists (rev l), c. split; [reflexivity|exact H].
Qed.

Lemma valid_description_fields d :
  valid_description d = true ->
  no_nl d = true /\ text_file d = true /\
  (length d < MAX_DESCRIPTION_LEN)%nat.
Proof.
  unfold valid_description. intros H.
  apply andb_true_iff in H. destruct H as [H H3].
  apply andb_true_iff in H. destruct H as [H1 H2].
  apply Nat.ltb_lt in H3. auto.
Qed.

Lemma task_line_good i (c : bool) d :
  in_int i -> valid_description d = true ->
  good_line (task_line i (if c then 1 else 0) d).
Proof.
  intros Hi Hv. destruct (valid_description_fields d Hv) as (Hn & Ht & Hl).
  pose proof (status_in_int c) as Hc.
  split; [|split].
  - apply task_line_whole; auto. unfold task_line.
    destruct (print_int_props i Hi) as (Hli & _).
    assert (length (print_int (if c then 1 else 0)) = 1%nat)
      by (now destruct c).
    rewrite !length_app. unfold LINE_SIZE, MAX_DESCRIPTION_LEN in *.
    simpl length. lia.
  - now apply task_line_text.
  - unfold desc_fits_line. destruct d as [|a d].
    + now rewrite scan_task_empty_description.
    + rewrite scan_task_line by (auto; discriminate).
      now apply Nat.ltb_lt.
Qed.

Lemma scan_id_task_line i st d :
  in_int i -> scan_id (task_line i st d) = Some i.
Proof.
  intros Hi. unfold scan_id, task_line.
  now rewrite scan_int_print by (exact Hi || reflexivity).
Qed.

Lemma getNextTaskId_in_int st : in_int (getNextTaskId st).
Proof. rewrite getNextTaskId_eq. apply wrap32_range. Qed.

(** The lines read after [addTask] on a file that ends a line. *)
Lemma add_lines e f d :
  append_ok e = true -> line_start f -> valid_description d = true ->
  fst (addTask e d (Some f))
  = Some (f ++ task_line (getNextTaskId (Some f)) 0 d) /\
  file_lines (f ++ task_line (getNextTaskId (Some f)) 0 d)
  = file_lines f ++ [task_line (getNextTaskId (Some f)) 0 d].
Proof.
  intros Ha Hf Hv. unfold addTask. rewrite Ha. cbn [fst].
  split; [reflexivity|].
  destruct (task_line_good (getNextTaskId (Some f)) false d
              (getNextTaskId_in_int _) Hv) as (Hw & Ht & _).
  cbn iota in Hw, Ht.
  rewrite file_lines_app by exact Hf.
  now rewrite (file_lines_whole_line _ Hw Ht).
Qed.

(** X12: on a file that ends with a newline and that List() can show,
    after Add(d), with [d] not empty, on one line and shorter than 256
    bytes, List() shows the rows of before followed by one pending row
    with the new id and [d]. *)
Theorem add_then_list
  (e : env) (f : list ascii) (d : cstring) (rows : list row) :
  append_ok e = true -> ends_nl f = true ->
  valid_description d = true -> d <> [] ->
  listTasks (Some f) = Done (Listing rows) ->
  listTasks (fst (addTask e d (Some f)))
  = Done (Listing (rows ++ [Build_row (getNextTaskId (Some f)) PENDING d])).
Proof.
  intros Ha Hf Hv Hne Hl. apply listTasks_done in Hl. destruct Hl as [Hd ->].
  destruct (add_lines e f d Ha (ends_nl_line_start f Hf) Hv) as [-> Hlines].
  pose proof (getNextTaskId_in_int (Some f)) as Hi.
  destruct (task_line_good _ false d Hi Hv) as (_ & _ & Hfit).
  destruct (valid_description_fields d Hv) as (Hn & _ & _).
  cbn iota in Hfit.
  rewrite listTasks_rows.
  - rewrite Hlines, filter_map_app. cbn [filter_map].
    unfold row_of_line at 2.
    rewrite scan_task_line by (auto; vm_compute; split; discriminate).
    reflexivity.
  - unfold desc_fits in *. rewrite Hlines, forallb_app, Hd. cbn [forallb].
    now rewrite Hfit.
Qed.

Lemma add_then_list_witness :
  listTasks (fst (addTask env_ok (str "call Bob") (Some (str "1,1,a
x
4,0,b
"))))
  = Done (Listing [Build_row 1 DONE (str "a"); Build_row 4 PENDING (str "b");
                   Build_row 5 PENDING (str "call Bob")]).
Proof.
  refine (add_then_list env_ok (str "1,1,a
x
4,0,b
") (str "call Bob") _ eq_refl eq_refl eq_refl _ eq_refl).
  discriminate.
Defined.

Lemma max_of_app a b : max_of (a ++ b) = Z.max (max_of a) (max_of b).
Proof.
  induction a as [|i a IH]; unfold max_of in *; simpl.
  - pose proof (max_of_nonneg b) as H. unfold max_of in H. lia.
  - rewrite IH. lia.
Qed.

(** X13: consecutive adds get consecutive ids.  On a file that ends
    with a newline, after Add(d), with [d] on one line and shorter
    than 256 bytes, the ids on disk are those of before followed by
    the new one, and the next id is the new one plus 1, short of the
    overflow of [int]. *)
Theorem add_then_next_id (e : env) (f : list ascii) (d : cstring) :
  append_ok e = true -> ends_nl f = true -> valid_description d = true ->
  max_of (disk_ids (Some f)) + 1 < INT_MAX ->
  disk_ids (fst (addTask e d (Some f)))
  = disk_ids (Some f) ++ [getNextTaskId (Some f)] /\
  getNextTaskId (fst (addTask e d (Some f))) = getNextTaskId (Some f) + 1.
Proof.
  intros Ha Hf Hv Hmax.
  destruct (add_lines e f d Ha (ends_nl_line_start f Hf) Hv) as [-> Hlines].
  pose proof (getNextTaskId_in_int (Some f)) as Hi.
  assert (E : disk_ids (Some (f ++ task_line (getNextTaskId (Some f)) 0 d))
              = disk_ids (Some f) ++ [getNextTaskId (Some f)]).
  { unfold disk_ids at 1. rewrite Hlines, filter_map_app. cbn [filter_map].
    now rewrite scan_id_task_line. }
  split; [exact E|].
  rewrite (getNextTaskId_eq (Some (f ++ _))), E, max_of_app.
  rewrite (getNextTaskId_eq (Some f)).
  pose proof (max_of_nonneg (disk_ids (Some f))) as Hn.
  unfold INT_MAX in Hmax.
  rewrite (wrap32_small (max_of (disk_ids (Some f)) + 1))
    by (unfold in_int, INT_MIN, INT_MAX; lia).
  unfold max_of at 2. cbn [fold_right].
  rewrite wrap32_small by (unfold in_int, INT_MIN, INT_MAX; lia). lia.
Qed.

Lemma add_then_next_id_witness :
  getNextTaskId (fst (addTask env_ok (str "b") (Some (str "6,0,a
"))))
  = getNextTaskId (Some (str "6,0,a
")) + 1.
Proof.
  refine (proj2 (add_then_next_id env_ok (str "6,0,a
") (str "b") eq_refl eq_refl eq_refl _)).
  vm_compute. reflexivity.
Defined.

Lemma filter_keep_all {A} (q : A -> bool) l :
  Forall (fun a => q a = true) l -> filter q l = l.
Proof.
  induction 1 as [|a l Ha _ IH]; simpl; [reflexivity|].
  now rewrite Ha, IH.
Qed.

Lemma ids_below_not_matched t L :
  Forall (fun i => i < t) (filter_map scan_id L) ->
  Forall (fun l => negb (id_matches t l) = true) L.
Proof.
  induction L as [|l L IH]; intros H; constructor.
  - unfold id_matches. simpl in H. destruct (scan_id l) as [i|]; [|reflexivity].
    inversion H; subst. apply negb_true_iff, Z.eqb_neq. lia.
  - apply IH. simpl in H. destruct (scan_id l); [now inversion H|exact H].
Qed.

(** Deleting the id just given leaves the file as it was. *)
Lemma add_then_delete_aux (e : env) (f : list ascii) (d : cstring) :
  append_ok e = true -> home_set e = true -> temp_ok e = true ->
  text_file f = true -> ends_nl f = true -> valid_description d = true ->
  max_of (disk_ids (Some f)) < INT_MAX ->
  deleteTask e (getNextTaskId (Some f)) (fst (addTask e d (Some f)))
  = (Some f, Deleted (getNextTaskId (Some f))).
Proof.
  intros Ha Hh Ht Hf He Hv Hmax.
  destruct (add_lines e f d Ha (ends_nl_line_start f He) Hv) as [-> Hlines].
  pose proof (getNextTaskId_in_int (Some f)) as Hi.
  destruct (task_line_good _ false d Hi Hv) as (_ & Htl & _).
  cbn iota in Htl.
  assert (Hlt : Forall (fun i => i < getNextTaskId (Some f))
                  (filter_map scan_id (file_lines f))).
  { pose proof (max_of_nonneg (disk_ids (Some f))) as Hn.
    rewrite getNextTaskId_eq.
    rewrite wrap32_small by (unfold in_int, INT_MIN, INT_MAX in *; lia).
    eapply Forall_impl; [|apply (max_of_bound (disk_ids (Some f)))].
    simpl. intros; lia. }
  assert (Hm : id_matches (getNextTaskId (Some f))
                 (task_line (getNextTaskId (Some f)) 0 d) = true).
  { unfold id_matches. rewrite scan_id_task_line by exact Hi.
    apply Z.eqb_refl. }
  unfold deleteTask. rewrite Hh, Ht. cbn [negb].
  rewrite delete_fold, Hlines. cbn [app fst snd orb].
  rewrite filter_app, existsb_app. cbn [filter existsb].
  rewrite Hm. cbn [negb]. rewrite app_nil_r, orb_true_r.
  rewrite (filter_keep_all _ _ (ids_below_not_matched _ _ Hlt)).
  rewrite (file_lines_text f Hf), concat_file_bufs. reflexivity.
Qed.

(** X14: Delete undoes Add.  On a text file that ends with a newline,
    after Add(d), with [d] on one line and shorter than 256 bytes,
    Delete of the new id reports the deletion and leaves the file
    byte for byte as it was before the add, short of the overflow of
    [int]. *)
Theorem add_then_delete_restores (e : env) (f : list ascii) (d : cstring) :
  append_ok e = true -> home_set e = true -> temp_ok e = true ->
  text_file f = true -> ends_nl f = true -> valid_description d = true ->
  max_of (disk_ids (Some f)) < INT_MAX ->
  deleteTask e (getNextTaskId (Some f)) (fst (addTask e d (Some f)))
  = (Some f, Deleted (getNextTaskId (Some f))).
Proof. exact (add_then_delete_aux e f d). Qed.

Lemma add_then_delete_restores_witness :
  deleteTask env_ok 3 (fst (addTask env_ok (str "c") (Some (str "1,0,a
 2,x
"))))
  = (Some (str "1,0,a
 2,x
"), Deleted 3).
Proof.
  refine (add_then_delete_restores env_ok (str "1,0,a
 2,x
") (str "c") eq_refl eq_refl eq_refl eq_refl eq_refl eq_refl _).
  vm_compute. reflexivity.
Defined.

(** X15: Add after a last line without newline.  When the file ends
    with a line [w] that has no newline, Add(d) writes the record
    right after [w]: the program then reads the lines before [w] and
    one line made of [w] followed by the record, so the new task is
    not a line of its own (as long as that line fits the read
    buffer). *)
Theorem add_after_unfinished_line (e : env) (pre w : list ascii) (d : cstring) :
  append_ok e = true -> ends_nl pre = true ->
  w <> [] -> no_nl w = true -> text_file w = true ->
  valid_description d = true ->
  (length w + length (task_line (getNextTaskId (Some (pre ++ w))) 0 d)
   <= LINE_SIZE - 1)%nat ->
  file_lines (pre ++ w) = file_lines pre ++ [w] /\
  exists f',
    fst (addTask e d (Some (pre ++ w))) = Some f' /\
    file_lines f'
    = file_lines pre ++ [w ++ task_line (getNextTaskId (Some (pre ++ w))) 0 d].
Proof.
  intros Ha Hp Hne Hn Ht Hv Hlen.
  pose proof (ends_nl_line_start pre Hp) as Hst.
  set (id := getNextTaskId (Some (pre ++ w))) in *.
  destruct (task_line_good id false d (getNextTaskId_in_int _) Hv)
    as ((W & c & HW & Hc & HnW & HlW) & Htl & _).
  cbn iota in HW, Htl. split.
  - rewrite file_lines_app by exact Hst. f_equal.
    unfold file_lines. rewrite (file_bufs_cons w w []).
    + simpl. now rewrite c_str_text.
    + exact Hne.
    + apply eof_read; [exact Hn|lia].
  - unfold addTask. rewrite Ha. cbn [fst]. fold id.
    eexists. split; [reflexivity|].
    rewrite <- app_assoc. rewrite file_lines_app by exact Hst. f_equal.
    apply file_lines_whole_line.
    + exists (w ++ W), c. rewrite HW, app_assoc. split; [reflexivity|].
      split; [exact Hc|]. split; [now rewrite no_nl_app, Hn, HnW|].
      rewrite HW in Hlen. rewrite !length_app in *. cbn [length] in Hlen.
      unfold LINE_SIZE, MAX_DESCRIPTION_LEN in *. lia.
    + now rewrite text_file_app, Ht, Htl.
Qed.

Lemma add_after_unfinished_line_witness :
  exists f',
    fst (addTask env_ok (str "b") (Some (str "1,0,a
" ++ str "2,0,x"))) = Some f' /\
    file_lines f' = file_lines (str "1,0,a
") ++ [str "2,0,x" ++ task_line 3 0 (str "b")].
Proof.
  refine (proj2 (add_after_unfinished_line env_ok (str "1,0,a
") (str "2,0,x") (str "b") eq_refl eq_refl _ eq_refl eq_refl eq_refl _)).
  - discriminate.
  - vm_compute. lia.
Defined.

(** ** The command line *)

Lemma code_inj x y : code x = code y -> x = y.
Proof.
  unfold code. intros H. apply N2Z.inj in H.
  rewrite <- (ascii_N_embedding x), <- (ascii_N_embedding y). now rewrite H.
Qed.

Lemma strcmp_eq_true a : forall b, strcmp_eq a b = true -> a = b.
Proof.
  induction a as [|x a IH]; intros [|y b] H; try discriminate; [reflexivity|].
  simpl in H. apply andb_true_iff in H. destruct H as [Hc H].
  apply Z.eqb_eq, code_inj in Hc. subst y. f_equal. now apply IH.
Qed.

Ltac main_cases H :=
  repeat match type of H with
    | (if ?b then _ else _) = Done _ => destruct b eqn:?
    | (match ?x with _ => _ end) = Done _ => destruct x eqn:?
    | bind ?m _ = Done _ => destruct m eqn:?; cbn [bind] in H
    | Undefined = Done _ => discriminate H
    end.

(** X16: whatever the arguments, the environment and the store, when
    [main] returns, its exit status is 0 or 1, and with status 1 the
    store is as it was. *)
Theorem main_exit_status
  (e : env) (argv : list cstring) (st st' : store) (status : Z)
  (out : output) :
  main e argv st = Done (status, st', out) ->
  (status = 0 \/ status = 1) /\ (status = 1 -> st' = st).
Proof.
  intros H. unfold main in H. main_cases H;
    injection H as <- <- <-; split; auto; intros; discriminate.
Qed.

Lemma main_exit_status_witness :
  (1 = 0 \/ 1 = 1) /\ (1 = 1 -> Some (str "1,0,a
") = Some (str "1,0,a
")).
Proof.
  exact (main_exit_status env_ok [str "tasakman"; str "done"; str "abc"]
           (Some (str "1,0,a
")) _ _ _ eq_refl).
Defined.

(** X17: only [add] creates the store file.  When the file does not
    exist and [main] returns, the file still does not exist, unless
    the command is [add]. *)
Theorem main_only_add_creates_store
  (e : env) (argv : list cstring) (st' : store) (status : Z) (out : output) :
  main e argv None = Done (status, st', out) ->
  st' = None \/ exists prog args, argv = prog :: str "add" :: args.
Proof.
  intros H. unfold main in H.
  destruct (negb (home_set e)); [injection H as _ <- _; now left|].
  destruct (negb (dir_ok e)); [injection H as _ <- _; now left|].
  destruct argv as [|prog [|cmd args]]; try (injection H as _ <- _; now left).
  destruct (strcmp_eq cmd (str "add")) eqn:Eadd.
  - right. apply strcmp_eq_true in Eadd. subst cmd. now exists prog, args.
  - left. cbn [modifyTaskStatus deleteTask listTasks bind fst snd] in H.
    main_cases H; injection H as _ <- _; reflexivity.
Qed.

Lemma main_only_add_creates_store_witness :
  (None : store) = None \/
  exists prog args,
    [str "tasakman"; str "delete"; str "1"]
    = prog :: str "add" :: args.
Proof.
  exact (main_only_add_creates_store env_ok
           [str "tasakman"; str "delete"; str "1"] _ _ _ eq_refl).
Defined.

Lemma atoi_no_number s : scan_int s = None -> atoi s = 0.
Proof. unfold atoi. now intros ->. Qed.

(** X18: [done], [pending] and [delete] reject an id argument that is
    not a positive number: when it has no leading integer, or one that
    is zero or negative, [main] prints the invalid-id message, exits
    with status 1 and leaves the store. *)
Theorem main_rejects_bad_id
  (e : env) (prog cmd arg : cstring) (rest : list cstring) (st : store) :
  home_set e = true -> dir_ok e = true ->
  In cmd [str "done"; str "pending"; str "delete"] ->
  scan_int arg = None \/ atoi arg <= 0 ->
  main e (prog :: cmd :: arg :: rest) st = Done (1, st, InvalidTaskId).
Proof.
  intros Hh Hd Hcmd Harg.
  assert (Hle : (atoi arg <=? 0) = true).
  { apply Z.leb_le. destruct Harg as [H|H]; [|exact H].
    rewrite (atoi_no_number arg H). lia. }
  unfold main. rewrite Hh, Hd. cbn [negb].
  destruct Hcmd as [<-|[<-|[<-|[]]]].
  - change (strcmp_eq (str "done") (str "add")) with false.
    change (strcmp_eq (str "done") (str "list")) with false.
    change (strcmp_eq (str "done") (str "done")) with true.
    cbv iota. now rewrite Hle.
  - change (strcmp_eq (str "pending") (str "add")) with false.
    change (strcmp_eq (str "pending") (str "list")) with false.
    change (strcmp_eq (str "pending") (str "done")) with false.
    change (strcmp_eq (str "pending") (str "pending")) with true.
    cbv iota. now rewrite Hle.
  - change (strcmp_eq (str "delete") (str "add")) with false.
    change (strcmp_eq (str "delete") (str "list")) with false.
    change (strcmp_eq (str "delete") (str "done")) with false.
    change (strcmp_eq (str "delete") (str "pending")) with false.
    change (strcmp_eq (str "delete") (str "delete")) with true.
    cbv iota. now rewrite Hle.
Qed.

Lemma main_rejects_bad_id_witness :
  main env_ok [str "tasakman"; str "delete"; str "-3"] (Some (str "1,0,a
"))
  = Done (1, Some (str "1,0,a
"), InvalidTaskId).
Proof.
  refine (main_rejects_bad_id env_ok (str "tasakman") (str "delete")
            (str "-3") [] _ eq_refl eq_refl _ _).
  - right. right. left. reflexivity.
  - right. vm_compute. discriminate.
Defined.

Lemma atoi_print_int n rest :
  in_int n -> starts_with_digit rest = false ->
  atoi (print_int n ++ rest) = n.
Proof.
  intros Hn Hr. unfold atoi. now rewrite scan_int_print.
Qed.

(** X19: an id as the program prints it is accepted back.  For a
    positive [int] n, the argument made of the decimal digits of n,
    followed by anything that does not start with a digit, makes
    [delete], [done] and [pending] work on the id n and exit with
    status 0. *)
Theorem main_reads_printed_id
  (e : env) (prog rest : cstring) (n : Z) (st : store) :
  home_set e = true -> dir_ok e = true ->
  in_int n -> 0 < n -> starts_with_digit rest = false ->
  main e [prog; str "delete"; print_int n ++ rest] st
  = Done (0, fst (deleteTask e n st), snd (deleteTask e n st)) /\
  main e [prog; str "done"; print_int n ++ rest] st
  = (r <- modifyTaskStatus e n true st ;; Done (0, fst r, snd r)) /\
  main e [prog; str "pending"; print_int n ++ rest] st
  = (r <- modifyTaskStatus e n false st ;; Done (0, fst r, snd r)).
Proof.
  intros Hh Hd Hn Hpos Hr.
  assert (Hgt : (n <=? 0) = false) by (apply Z.leb_gt; exact Hpos).
  unfold main. rewrite Hh, Hd. cbn [negb].
  rewrite (atoi_print_int n rest Hn Hr), Hgt.
  change (strcmp_eq (str "done") (str "add")) with false.
  change (strcmp_eq (str "done") (str "list")) with false.
  change (strcmp_eq (str "done") (str "done")) with true.
  change (strcmp_eq (str "pending") (str "add")) with false.
  change (strcmp_eq (str "pending") (str "list")) with false.
  change (strcmp_eq (str "pending") (str "done")) with false.
  change (strcmp_eq (str "pending") (str "pending")) with true.
  change (strcmp_eq (str "delete") (str "add")) with false.
  change (strcmp_eq (str "delete") (str "list")) with false.
  change (strcmp_eq (str "delete") (str "done")) with false.
  change (strcmp_eq (str "delete") (str "pending")) with false.
  change (strcmp_eq (str "delete") (str "delete")) with true.
  cbv iota. repeat split; try reflexivity.
  now destruct (deleteTask e n st).
Qed.

Lemma main_reads_printed_id_witness :
  main env_ok [str "tasakman"; str "delete"; print_int 12 ++ str "abc"]
    (Some (str "12,0,a
"))
  = Done (0, Some [], Deleted 12).
Proof.
  refine (proj1 (main_reads_printed_id env_ok (str "tasakman") (str "abc") 12
                   (Some (str "12,0,a
")) eq_refl eq_refl _ _ eq_refl)).
  - unfold in_int, INT_MIN, INT_MAX; lia.
  - lia.
Defined.

(** ** The paths *)

Lemma firstn_names_differ k :
  firstn k TASK_FILENAME = firstn k TEMP_FILENAME <-> (k <= 1)%nat.
Proof.
  destruct k as [|[|k]].
  - split; [lia|reflexivity].
  - split; [lia|reflexivity].
  - split; [|lia]. unfold TASK_FILENAME, TEMP_FILENAME, str. simpl.
    intros H. discriminate H.
Qed.

(** X20: the path of the temporary file is the path of the store file
    itself exactly when HOME is 490 bytes long or more: [snprintf]
    cuts both paths after 511 bytes, which then leaves at most the
    first letter of the two file names. *)
Theorem temp_path_is_store_path_iff (home : cstring) :
  temp_file_path home = full_task_file_path home <->
  (490 <= length home)%nat.
Proof.
  unfold temp_file_path, full_task_file_path, snprintf.
  rewrite !(app_assoc home), !(app_assoc (home ++ TASK_DIR_SUFFIX)).
  rewrite !(firstn_app _ ((home ++ TASK_DIR_SUFFIX) ++ str "/")).
  split.
  - intros H. apply app_inv_head in H. symmetry in H.
    apply firstn_names_differ in H.
    rewrite !length_app in H. unfold MAX_PATH_LEN in H.
    change (length TASK_DIR_SUFFIX) with 19%nat in H.
    change (length (str "/")) with 1%nat in H. lia.
  - intros H. f_equal. symmetry. apply firstn_names_differ.
    rewrite !length_app. unfold MAX_PATH_LEN.
    change (length TASK_DIR_SUFFIX) with 19%nat.
    change (length (str "/")) with 1%nat. lia.
Qed.

(** X21: with HOME of 477 bytes at most, no path is cut: the store
    file and the temporary file are tasks.txt and temp_tasks.txt in
    the directory that [ensure_task_directory_exists] makes,
    $HOME/.local/taskmanager. *)
Theorem paths_in_task_dir (home : cstring) :
  (length home <= 477)%nat ->
  task_dir home = home ++ str "/.local/taskmanager" /\
  full_task_file_path home = task_dir home ++ str "/tasks.txt" /\
  temp_file_path home = task_dir home ++ str "/temp_tasks.txt".
Proof.
  intros H.
  assert (L1 : length (str "/.local/taskmanager") = 19%nat) by reflexivity.
  assert (L2 : length (str "/") = 1%nat) by reflexivity.
  assert (L3 : length (str "tasks.txt") = 9%nat) by reflexivity.
  assert (L4 : length (str "temp_tasks.txt") = 14%nat) by reflexivity.
  unfold task_dir, full_task_file_path, temp_file_path, snprintf,
    TASK_DIR_SUFFIX, TASK_FILENAME, TEMP_FILENAME, MAX_PATH_LEN.
  rewrite !firstn_all2.
  - rewrite <- !app_assoc. repeat split; reflexivity.
  - rewrite !length_app, L1, L2, L4. lia.
  - rewrite !length_app, L1, L2, L3. lia.
  - rewrite !length_app, L1. lia.
Qed.

Lemma paths_in_task_dir_witness :
  full_task_file_path (str "/home/ann")
  = task_dir (str "/home/ann") ++ str "/tasks.txt".
Proof.
  refine (proj1 (proj2 (paths_in_task_dir (str "/home/ann") _))).
  vm_compute. lia.
Defined.

(** ** Stores the program makes itself *)

Lemma whole_lines_line_start M :
  Forall whole_line M -> line_start (concat M).
Proof.
  induction 1 as [|b M Hb _ IH]; [now left|]. cbn [concat].
  destruct IH as [E|(p & c & E & Hc)].
  - rewrite E, app_nil_r. now apply whole_line_start.
  - right. exists (b ++ p), c. rewrite E, app_assoc. now split.
Qed.

Lemma good_lines_whole M : Forall good_line M -> Forall whole_line M.
Proof. apply Forall_impl. now intros l (H & _). Qed.

Lemma good_lines_fit M :
  Forall good_line M -> forallb desc_fits_line M = true.
Proof.
  induction 1 as [|l M (_ & _ & Hl) _ IH]; [reflexivity|].
  simpl. now rewrite Hl, IH.
Qed.

Lemma tidy_facts f :
  tidy (Some f) ->
  text_file f = true /\ desc_fits f = true /\ line_start f.
Proof.
  intros [Ht Hg]. split; [exact Ht|]. split.
  - now apply good_lines_fit.
  - rewrite <- (concat_file_bufs f), <- (file_lines_text f Ht).
    now apply whole_lines_line_start, good_lines_whole.
Qed.

Lemma good_line_set_status t c l :
  good_line l -> good_line (set_status t c l).
Proof.
  intros (Hw & Ht & Hf).
  destruct (scan_task l) as [[[i st] d]|] eqn:E.
  - rewrite (set_status_record t c l i st d E).
    destruct (i =? t); [|now repeat split].
    destruct (scan_task_fields _ _ _ _ E) as (Hi & _ & Hn & _ & Htd).
    apply task_line_good; [exact Hi|].
    unfold desc_fits_line in Hf. rewrite E in Hf.
    unfold valid_description. now rewrite Hn, (Htd Ht), Hf.
  - rewrite (set_status_malformed t c l E). now repeat split.
Qed.

Lemma Forall_map_same {A} (P : A -> Prop) (g : A -> A) l :
  (forall a, P a -> P (g a)) -> Forall P l -> Forall P (map g l).
Proof. intros H. induction 1; simpl; constructor; auto. Qed.

Lemma store_created_start (st : store) :
  tidy st -> line_start match st with Some f => f | None => [] end.
Proof.
  destruct st as [f|]; [|now left]. intros H.
  now destruct (tidy_facts f H) as (_ & _ & Hs).
Qed.

(** One command on a tidy store: it goes through, the store stays
    tidy, and the ids on disk are those of before, without the id
    deleted, or followed by the id given. *)
Lemma exec_tidy e st c :
  tidy st -> valid_command c = true ->
  exists st',
    exec e st c = Done st' /\ tidy st' /\
    (disk_ids st' = disk_ids st \/
     (exists t, disk_ids st' = filter (fun i => negb (i =? t)) (disk_ids st)) \/
     disk_ids st' = disk_ids st ++ [wrap32 (max_of (disk_ids st) + 1)]).
Proof.
  intros Hst Hv. destruct c as [d|t b|t|]; cbn [exec valid_command] in *.
  - (* add *)
    unfold addTask. destruct (append_ok e) eqn:Ha;
      [|exists st; cbn [fst]; auto].
    cbn [fst]. eexists. split; [reflexivity|].
    pose proof (store_created_start st Hst) as Hs.
    set (f := match st with Some f => f | None => [] end) in *.
    assert (Hf : tidy (Some f)) by (destruct st; [exact Hst|now split]).
    destruct Hf as [Ht Hg].
    pose proof (getNextTaskId_in_int (Some f)) as Hi.
    pose proof (task_line_good _ false d Hi Hv) as Hgl. cbn iota in Hgl.
    destruct Hgl as (Hw & Htl & Hfl).
    assert (Hlines : file_lines (f ++ task_line (getNextTaskId (Some f)) 0 d)
                     = file_lines f ++ [task_line (getNextTaskId (Some f)) 0 d]).
    { rewrite file_lines_app by exact Hs.
      now rewrite (file_lines_whole_line _ Hw Htl). }
    split.
    + split; [now rewrite text_file_app, Ht, Htl|].
      rewrite Hlines. apply Forall_app. split; [exact Hg|].
      constructor; [now repeat split|constructor].
    + right. right. unfold disk_ids at 1. rewrite Hlines, filter_map_app.
      cbn [filter_map]. rewrite scan_id_task_line by exact Hi.
      rewrite getNextTaskId_eq.
      replace (disk_ids st) with (disk_ids (Some f)); [reflexivity|].
      subst f. now destruct st.
  - (* set status *)
    destruct st as [f|]; [|exists None; cbn; auto].
    destruct (tidy_facts f Hst) as (Ht & Hd & _). destruct Hst as [_ Hg].
    unfold modifyTaskStatus.
    destruct (home_set e) eqn:Hh; cbn [negb];
      [|exists (Some f); cbn [bind fst]; repeat split; auto].
    destruct (temp_ok e) eqn:Hte; cbn [negb];
      [|exists (Some f); cbn [bind fst]; repeat split; auto].
    destruct (set_status_lines e f t b Hh Hte Ht Hd)
      as (f' & Hm & _ & Ht' & _ & Hl').
    unfold modifyTaskStatus in Hm. rewrite Hh, Hte in Hm. cbn [negb] in Hm.
    rewrite Hm. cbn [bind fst]. exists (Some f'). split; [reflexivity|].
    split.
    + split; [exact Ht'|]. rewrite Hl'.
      apply Forall_map_same; [apply good_line_set_status|exact Hg].
    + left. unfold disk_ids. now rewrite Hl', ids_set_status.
  - (* delete *)
    destruct st as [f|]; [|exists None; cbn; auto].
    destruct Hst as [Ht Hg]. unfold deleteTask.
    destruct (home_set e) eqn:Hh; cbn [negb];
      [|exists (Some f); cbn [fst]; repeat split; auto].
    destruct (temp_ok e) eqn:Hte; cbn [negb];
      [|exists (Some f); cbn [fst]; repeat split; auto].
    destruct (delete_lines e f t Hh Hte Ht) as (f' & Hm & _ & Ht' & Hl').
    unfold deleteTask in Hm. rewrite Hh, Hte in Hm. cbn [negb] in Hm.
    rewrite Hm. cbn [fst]. exists (Some f'). split; [reflexivity|]. split.
    + split; [exact Ht'|]. rewrite Hl'. now apply Forall_filter.
    + right. left. exists t. unfold disk_ids.
      now rewrite Hl', ids_without_id.
  - (* list *)
    destruct st as [f|]; [|exists None; cbn; auto].
    destruct (tidy_facts f Hst) as (_ & Hd & _).
    rewrite listTasks_rows by exact Hd. cbn [bind].
    exists (Some f). auto.
Qed.

(** X22: the program never overruns a buffer on a store it made
    itself.  From an absent store, or from a text store whose lines
    end with a newline, fit the read buffer and have descriptions that
    fit theirs, every sequence of add (with a description on one line,
    shorter than 256 bytes), set-status, delete and list commands goes
    through, and leaves a store of that kind. *)
Theorem commands_keep_store_tidy (e : env) (cmds : list command) (st : store) :
  tidy st -> forallb valid_command cmds = true ->
  exists st', exec_all e cmds st = Done st' /\ tidy st'.
Proof.
  revert st. induction cmds as [|c cmds IH]; intros st Hst Hv.
  - exists st. now split.
  - cbn [forallb] in Hv. apply andb_true_iff in Hv. destruct Hv as [Hc Hv].
    destruct (exec_tidy e st c Hst Hc) as (st1 & E1 & Ht1 & _).
    destruct (IH st1 Ht1 Hv) as (st' & E' & Ht').
    exists st'. split; [|exact Ht'].
    unfold exec_all in *. cbn [foldM]. now rewrite E1.
Qed.

Lemma NoDup_filter_Z (q : Z -> bool) l : NoDup l -> NoDup (filter q l).
Proof.
  induction 1 as [|a l Ha _ IH]; simpl; [constructor|].
  destruct (q a); [|exact IH]. constructor; [|exact IH].
  intros H. apply filter_In in H. now destruct H.
Qed.

Lemma NoDup_add_last (l : list Z) a : NoDup l -> ~ In a l -> NoDup (l ++ [a]).
Proof.
  induction 1 as [|b l Hb _ IH]; intros Ha; simpl.
  - constructor; [intros []|constructor].
  - constructor.
    + rewrite in_app_iff. simpl. intros [H|[H|[]]]; [tauto|].
      subst. apply Ha. now left.
    + apply IH. intros H. apply Ha. now right.
Qed.

Lemma ids_distinct_invariant e cmds : forall st n,
  tidy st -> forallb valid_command cmds = true ->
  NoDup (disk_ids st) -> Forall (fun i => i <= n) (disk_ids st) ->
  0 <= n -> n + Z.of_nat (length cmds) <= INT_MAX ->
  exists st', exec_all e cmds st = Done st' /\ NoDup (disk_ids st').
Proof.
  induction cmds as [|c cmds IH]; intros st n Hst Hv Hnd Hle Hn Hmax.
  - exists st. now split.
  - cbn [forallb] in Hv. apply andb_true_iff in Hv. destruct Hv as [Hc Hv].
    destruct (exec_tidy e st c Hst Hc) as (st1 & E1 & Ht1 & Hids).
    cbn [length] in Hmax. rewrite Nat2Z.inj_succ in Hmax.
    assert (H1 : NoDup (disk_ids st1) /\
                 Forall (fun i => i <= n + 1) (disk_ids st1)).
    { destruct Hids as [->|[(t & ->)| ->]].
      - split; [exact Hnd|]. eapply Forall_impl; [|exact Hle].
        simpl; intros; lia.
      - split; [now apply NoDup_filter_Z|]. apply Forall_filter.
        eapply Forall_impl; [|exact Hle]. simpl; intros; lia.
      - assert (Hm : 0 <= max_of (disk_ids st) <= n).
        { split; [apply max_of_nonneg|].
          clear -Hle Hn. induction Hle; unfold max_of in *; simpl; lia. }
        rewrite wrap32_small by (unfold in_int, INT_MIN, INT_MAX in *; lia).
        split.
        + apply NoDup_add_last; [exact Hnd|]. intros Hin.
          pose proof (max_of_bound (disk_ids st)) as Hb.
          rewrite Forall_forall in Hb. apply Hb in Hin. lia.
        + apply Forall_app. split.
          * eapply Forall_impl; [|exact Hle]. simpl; intros; lia.
          * constructor; [lia|constructor]. }
    destruct H1 as [Hnd1 Hle1].
    destruct (IH st1 (n + 1) Ht1 Hv Hnd1 Hle1) as (st' & E' & Hnd'); try lia.
    exists st'. split; [|exact Hnd'].
    unfold exec_all in *. cbn [foldM]. now rewrite E1.
Qed.

(** X23: ids on disk stay distinct.  From an absent store, after every
    sequence of fewer than 2^31 add (with a description on one line,
    shorter than 256 bytes), set-status, delete and list commands, no
    two lines of the store start with the same id. *)
Theorem ids_stay_distinct (e : env) (cmds : list command) :
  forallb valid_command cmds = true ->
  Z.of_nat (length cmds) <= INT_MAX ->
  exists st', exec_all e cmds None = Done st' /\ NoDup (disk_ids st').
Proof.
  intros Hv Hlen.
  apply (ids_distinct_invariant e cmds None 0);
    [exact I|exact Hv|constructor|constructor|lia|lia].
Qed.

Lemma ids_stay_distinct_witness :
  exists st',
    exec_all env_ok
      [CAdd (str "a"); CAdd (str "b"); CDelete 2; CAdd (str "c");
       CSetStatus 2 true] None = Done st' /\
    NoDup (disk_ids st').
Proof.
  refine (ids_stay_distinct env_ok
            [CAdd (str "a"); CAdd (str "b"); CDelete 2; CAdd (str "c");
             CSetStatus 2 true] eq_refl _).
  vm_compute. discriminate.
Defined.

Lemma split_lines_nonempty r : r <> [] -> split_lines r <> [].
Proof.
  destruct r as [|c r]; [congruence|]. intros _. simpl.
  destruct (is_nl c); [discriminate|].
  destruct (split_lines r); discriminate.
Qed.

Lemma short_lines_whole f :
  line_start f -> short_lines f = true -> Forall whole_line (split_lines f).
Proof.
  induction f as [|c r IH]; intros Hs Hl; [constructor|].
  assert (Hr : line_start r) by (apply (line_start_tail [c] r); exact Hs).
  unfold short_lines in *. cbn [split_lines] in *.
  destruct (is_nl c) eqn:Ec.
  - cbn [forallb] in Hl. apply andb_true_iff in Hl. destruct Hl as [_ Hl].
    constructor; [|now apply IH].
    exists [], c. repeat split; auto. unfold LINE_SIZE, MAX_DESCRIPTION_LEN.
    simpl. lia.
  - assert (Hne : r <> []).
    { intros ->. destruct Hs as [H|(p & x & H & Hx)]; [discriminate|].
      destruct p as [|y p]; simpl in H.
      - injection H as ->. congruence.
      - injection H as _ H. now destruct p. }
    pose proof (split_lines_nonempty r Hne) as Hsp.
    destruct (split_lines r) as [|l ls]; [congruence|].
    cbn [forallb] in Hl. apply andb_true_iff in Hl. destruct Hl as [Hcl Hls].
    apply Nat.leb_le in Hcl. cbn [length] in Hcl.
    assert (Hl' : forallb (fun l0 => (length l0 <=? LINE_SIZE - 1)%nat)
                    (l :: ls) = true).
    { cbn [forallb]. rewrite Hls, andb_true_r. apply Nat.leb_le. lia. }
    pose proof (IH Hr Hl') as Hall. inversion Hall as [|? ? Hw Hrest]; subst.
    constructor; [|exact Hrest].
    destruct Hw as (w & x & -> & Hx & Hw & Hlen).
    exists (c :: w), x. split; [reflexivity|]. split; [exact Hx|]. split.
    + simpl. now rewrite Ec, Hw.
    + rewrite length_app in Hcl. simpl in *. lia.
Qed.

(** A text file that ends with a newline, whose lines fit the read
    buffer and whose descriptions fit theirs, is a tidy store. *)
Lemma tidy_of_checks f :
  ends_nl f = true -> text_file f = true ->
  short_lines f = true -> desc_fits f = true ->
  tidy (Some f).
Proof.
  intros He Ht Hs Hd. split; [exact Ht|].
  pose proof (short_lines_whole f (ends_nl_line_start f He) Hs) as Hw.
  pose proof (text_file_bufs f Ht) as Htx.
  unfold desc_fits in Hd. rewrite forallb_forall in Hd.
  rewrite (file_lines_short f Ht Hs) in *.
  rewrite (file_bufs_short f Hs) in Htx.
  rewrite Forall_forall in *. intros l Hl. repeat split; auto.
Qed.

Lemma commands_keep_store_tidy_witness :
  exists st',
    exec_all env_ok
      [CAdd (str "b"); CSetStatus 1 true; CList; CDelete 2; CAdd (str "c")]
      (Some (str "1,0,a
note
")) = Done st' /\ tidy st'.
Proof.
  exact (commands_keep_store_tidy env_ok
           [CAdd (str "b"); CSetStatus 1 true; CList; CDelete 2;
            CAdd (str "c")]
           (Some (str "1,0,a
note
"))
           (tidy_of_checks (str "1,0,a
note
") eq_refl eq_refl eq_refl eq_refl) eq_refl).
Defined.

(** ** The claims that fail outside text files and short lines *)

(** C7 as stated fails on a file with a NUL byte: the program reads
    the line 2, NUL as the C string "2," and writes it without its
    newline, so SetStatus(2, done) makes the well-formed line 2,0,a
    out of two malformed ones and reports "not found"; applied again
    it finds that line and rewrites it. *)
Lemma modifyTaskStatus_twice_differs_with_nul :
  let f := str "2," ++ ["000"%char; NL] ++ str "0,a
" in
  text_file f = false /\ desc_fits f = true /\
  modifyTaskStatus env_ok 2 true (Some f)
  = Done (Some (str "2,0,a
"), NotFound 2) /\
  modifyTaskStatus env_ok 2 true (Some (str "2,0,a
"))
  = Done (Some (str "2,1,a
"), Marked 2 true).
Proof. vm_compute. repeat split; reflexivity. Qed.

(** C10 as stated fails for a status outside the range of [int] and
    for a line longer than the read buffer: the status 4294967297 is
    narrowed to 1 and shown as done, and of a line of 278 bytes with
    two [int] fields and a description of 253 bytes only the first 275
    bytes make the record, whose description is cut to 251 bytes. *)
Lemma status_out_of_range_or_long_line :
  listTasks (Some (str "1,4294967297,x
"))
  = Done (Listing [Build_row 1 DONE (str "x")]) /\
  (let l := task_line INT_MIN INT_MIN (repeat "x"%char 253) in
   length l = 278%nat /\
   listTasks (Some l)
   = Done (Listing [Build_row INT_MIN PENDING (repeat "x"%char 251)])).
Proof. vm_compute. repeat split; reflexivity. Qed.

(** ** Ids that are given again *)

(** C1, as the program has it.  Along every sequence of adds and
    deletes from every store, the id of each add is one more than the
    largest leading integer of the lines as the program reads them at
    that moment (1 when the file is absent or none is positive, with
    the wrap-around of [int]), hence larger than every id then on
    disk as long as [int] does not overflow.  Ids that are no longer
    on disk are not remembered: on a text file that ends with a
    newline, when a task is added, with a description on one line,
    without NUL and shorter than 256 bytes, and deleted at once, the
    next add is given its id again. *)
Theorem add_id_from_disk_ids
  (e : env) (st : store) (ops : list op) (f : list ascii) (d d' : cstring) :
  Forall add_fresh (run e st ops) /\
  (append_ok e = true -> home_set e = true -> temp_ok e = true ->
   text_file f = true -> ends_nl f = true -> valid_description d = true ->
   max_of (disk_ids (Some f)) < INT_MAX ->
   run e (Some f) [Add d; Delete (getNextTaskId (Some f)); Add d']
   = [Assigned (Some f) (getNextTaskId (Some f));
      Removed (getNextTaskId (Some f));
      Assigned (Some f) (getNextTaskId (Some f))] /\
   reuse_free [] []
     (run e (Some f) [Add d; Delete (getNextTaskId (Some f)); Add d'])
   = false).
Proof.
  split; [apply run_add_fresh|].
  intros Ha Hh Ht Hf He Hv Hmax.
  pose proof (add_then_delete_aux e f d Ha Hh Ht Hf He Hv Hmax) as E.
  assert (R : run e (Some f) [Add d; Delete (getNextTaskId (Some f)); Add d']
              = [Assigned (Some f) (getNextTaskId (Some f));
                 Removed (getNextTaskId (Some f));
                 Assigned (Some f) (getNextTaskId (Some f))]).
  { unfold addTask in E. rewrite Ha in E. cbn [fst] in E.
    cbn [run step]. unfold addTask. rewrite Ha. rewrite E.
    reflexivity. }
  split; [exact R|]. rewrite R. cbn [reuse_free existsb].
  rewrite Z.eqb_refl. cbn [orb negb andb existsb].
  rewrite Z.eqb_refl. reflexivity.
Qed.

Lemma add_id_from_disk_ids_witness :
  run env_ok (Some (str "1,0,a
2,0,b
")) [Add (str "c"); Delete 3; Add (str "d")]
  = [Assigned (Some (str "1,0,a
2,0,b
")) 3; Removed 3; Assigned (Some (str "1,0,a
2,0,b
")) 3].
Proof.
  refine (proj1 (proj2 (add_id_from_disk_ids env_ok None [] (str "1,0,a
2,0,b
") (str "c") (str "d")) eq_refl eq_refl eq_refl eq_refl eq_refl eq_refl _)).
  vm_compute. reflexivity.
Defined.
